(** * Brace-spacing rule (lib/rules/object-curly-spacing.js) and the
      line-end whitespace scanner exercised by
      tests/lib/rules/no-trailing-spaces.js.

    The rule is embedded shallowly: JavaScript values that the rule reads
    from its configuration are a small sum type, the option object is a
    finite map keyed by property name, tokens and AST nodes are records,
    and the body of every handler is written in a monad that threads the
    list of diagnostics handed to [context.report] and can end abruptly
    with a [TypeError] (reading a property of [null]/[undefined]). *)

From Stdlib Require Import ZArith String Ascii List Bool Lia.
From stdpp Require Import base option list gmap strings.

Set Warnings "-register-all".

Open Scope Z_scope.
Open Scope string_scope.
Open Scope list_scope.

(** ** JavaScript values read from the configuration *)

Inductive JsVal : Type :=
  | JUndefined
  | JBool (b : bool)
  | JStr (s : string).

(** [v === b] for a boolean [b]: strict equality never coerces. *)
Definition strict_eq_bool (v : JsVal) (b : bool) : bool :=
  match v with
  | JBool b' => Bool.eqb b' b
  | _ => false
  end.

(** [v === s] for a string literal [s]. *)
Definition strict_eq_str (v : JsVal) (s : string) : bool :=
  match v with
  | JStr s' => String.eqb s' s
  | _ => false
  end.

(** [obj[key]]: a missing own property reads as [undefined]. *)
Definition js_get (obj : gmap string JsVal) (key : string) : JsVal :=
  default JUndefined (obj !! key).

(** [key in obj]. *)
Definition js_in (key : string) (obj : gmap string JsVal) : bool :=
  bool_decide (is_Some (obj !! key)).

(** [context.options]: position 0 is any value (the schema allows
    ["always"], ["never"] or nothing), position 1 is an object or absent. *)
Record Context : Type := {
  options_0 : JsVal;
  options_1 : option (gmap string JsVal)
}.

(** ** Tokens, nodes, diagnostics *)

Module Position.
Record t : Type := { line : Z; column : Z }.
End Position.

Module Loc.
(** [end_] is the source's [end]. *)
Record t : Type := { start : Position.t; end_ : Position.t }.
End Loc.

Module Token.
Record t : Type := {
  value : string;
  range : Z * Z;
  loc : Loc.t
}.
End Token.

Module Node.
(** An ESTree node: object nodes carry [properties], import and export
    declarations carry [specifiers]; a specifier is itself a node. *)
Inductive t : Type := Build {
  type : string;
  range : Z * Z;
  properties : list t;
  specifiers : list t
}.
End Node.

Module Report.
(** One call [context.report(node, loc, message)]. *)
Record t : Type := {
  node : Node.t;
  loc : Position.t;
  message : string
}.
End Report.

Module Options.
(** The object literal bound to [var options]. *)
Record t : Type := {
  spaced : bool;
  arraysInObjectsException : bool;
  objectsInObjectsException : bool;
  ObjectPattern : bool;
  ObjectExpression : bool;
  ImportDeclaration : bool;
  ExportNamedDeclaration : bool
}.
End Options.

(** The four keys under which the rule registers a handler, and by which
    [validateBraceSpacing] indexes [options]. *)
Inductive NodeType : Type :=
  | ObjectPattern
  | ObjectExpression
  | ImportDeclaration
  | ExportNamedDeclaration.

(** [options[nodeType]]. *)
Definition options_at (o : Options.t) (nodeType : NodeType) : bool :=
  match nodeType with
  | ObjectPattern => Options.ObjectPattern o
  | ObjectExpression => Options.ObjectExpression o
  | ImportDeclaration => Options.ImportDeclaration o
  | ExportNamedDeclaration => Options.ExportNamedDeclaration o
  end.

(** The property name of a key. *)
Definition nodeType_key (nodeType : NodeType) : string :=
  match nodeType with
  | ObjectPattern => "ObjectPattern"
  | ObjectExpression => "ObjectExpression"
  | ImportDeclaration => "ImportDeclaration"
  | ExportNamedDeclaration => "ExportNamedDeclaration"
  end.

(** Anything with a [range]: the token accessors take a node or a token. *)
Class Ranged (A : Type) : Type := range_of : A -> Z * Z.
#[export] Instance Ranged_token : Ranged Token.t := Token.range.
#[export] Instance Ranged_node : Ranged Node.t := Node.range.

(** ** The monad of a rule body *)

Inductive JsError : Type := TypeError.

Inductive Completion (A : Type) : Type :=
  | Normal (a : A)
  | Throw (e : JsError).
Arguments Normal {A} a.
Arguments Throw {A} e.

(** A computation takes the diagnostics reported so far and returns how it
    completed together with the diagnostics reported by then; diagnostics
    reported before a throw stay reported. *)
Definition Rule (A : Type) : Type :=
  list Report.t -> Completion A * list Report.t.

Definition ret {A} (a : A) : Rule A := fun log => (Normal a, log).

Definition throw {A} (e : JsError) : Rule A := fun log => (Throw e, log).

Definition bind {A B} (m : Rule A) (k : A -> Rule B) : Rule B :=
  fun log =>
    match m log with
    | (Normal a, log') => k a log'
    | (Throw e, log') => (Throw e, log')
    end.

Declare Scope rule_scope.
Delimit Scope rule_scope with rule.
Notation "x <- m ;; k" := (bind m (fun x => k))
  (at level 100, m at next level, right associativity) : rule_scope.
Notation "m ;; k" := (bind m (fun _ => k))
  (at level 100, right associativity) : rule_scope.
Open Scope rule_scope.

(** [x.f] where [x] may be [null] or [undefined]. *)
Definition get {A B} (f : A -> B) (x : option A) : Rule B :=
  match x with
  | Some a => ret (f a)
  | None => throw TypeError
  end.

(** [a && b] and [a || b] evaluate [b] only when needed. *)
Definition js_and (a : bool) (b : Rule bool) : Rule bool :=
  if a then b else ret false.

Definition js_or (a : Rule bool) (b : Rule bool) : Rule bool :=
  x <- a ;; if x then ret true else b.

(** [context.report(node, loc, message)] appends one diagnostic. *)
Definition context_report (node : Node.t) (loc : Position.t) (message : string)
  : Rule unit :=
  fun log =>
    (Normal tt,
     log ++ [{| Report.node := node; Report.loc := loc; Report.message := message |}]).

(** ** Token accessor and token-pair helpers *)

(** Modelled from the spec: the source-code object returned by
    [context.getSourceCode()] is not among the sources.  Section 2 of the
    specification gives it an "ordered token sequence with per-token
    start/end offsets and line/column positions" and the "ability to fetch
    the token immediately before/after a given token or node". *)
Record SourceCode : Type := { tokens : list Token.t }.

(** Modelled from the spec: the token immediately before a range is the
    last token of the sequence that ends at or before the range starts. *)
Definition tokenBefore (sc : SourceCode) (r : Z * Z) : option Token.t :=
  last (filter (fun t => snd (Token.range t) <= fst r) (tokens sc)).

(** Modelled from the spec: the token immediately after a range is the
    first token of the sequence that starts at or after the range ends. *)
Definition tokenAfter (sc : SourceCode) (r : Z * Z) : option Token.t :=
  head (filter (fun t => snd r <= fst (Token.range t)) (tokens sc)).

(** Modelled from the spec: the first token of a node is the first token
    that starts at or after the node starts (its opening delimiter). *)
Definition firstToken (sc : SourceCode) (r : Z * Z) : option Token.t :=
  head (filter (fun t => fst r <= fst (Token.range t)) (tokens sc)).

(** Modelled from the spec: the last token of a node is the last token
    that ends at or before the node ends (its closing delimiter). *)
Definition lastToken (sc : SourceCode) (r : Z * Z) : option Token.t :=
  last (filter (fun t => snd (Token.range t) <= snd r) (tokens sc)).

(** The four accessors as the rule calls them: the argument's [range] is
    read first, so a [null] argument throws; the result is a token or
    [null]. *)
Definition getFirstToken {A} `{Ranged A} (sc : SourceCode) (x : option A)
  : Rule (option Token.t) :=
  r <- get range_of x ;; ret (firstToken sc r).

Definition getLastToken {A} `{Ranged A} (sc : SourceCode) (x : option A)
  : Rule (option Token.t) :=
  r <- get range_of x ;; ret (lastToken sc r).

Definition getTokenBefore {A} `{Ranged A} (sc : SourceCode) (x : option A)
  : Rule (option Token.t) :=
  r <- get range_of x ;; ret (tokenBefore sc r).

Definition getTokenAfter {A} `{Ranged A} (sc : SourceCode) (x : option A)
  : Rule (option Token.t) :=
  r <- get range_of x ;; ret (tokenAfter sc r).

Module astUtils.
(** Modelled from the spec: lib/ast-utils.js is not among the sources.
    "The two tokens of that side lie on the same physical line": the line
    on which the left token ends is the line on which the right one
    starts. *)
Definition sameLine (left right : Token.t) : bool :=
  Z.eqb (Position.line (Loc.end_ (Token.loc left)))
        (Position.line (Loc.start (Token.loc right))).

(** Modelled from the spec: section 4.1, "in practice this reduces to
    non-zero horizontal gap".  The helper receives the two tokens only, so
    the gap is read off their offsets: the left token ends strictly before
    the right one starts. *)
Definition spacedPair (left right : Token.t) : bool :=
  Z.ltb (snd (Token.range left)) (fst (Token.range right)).

(** The helpers as called: both read properties of both arguments, left
    then right, so a [null] argument throws. *)
Definition isTokenOnSameLine (left right : option Token.t) : Rule bool :=
  l <- get id left ;; r <- get id right ;; ret (sameLine l r).

Definition isTokenSpaced (left right : option Token.t) : Rule bool :=
  l <- get id left ;; r <- get id right ;; ret (spacedPair l r).
End astUtils.

(** ** The rule: [module.exports = function(context) { ... }] *)

Section Rule.

Variable context : Context.

(** [context.getSourceCode()]. *)
Variable sourceCode : SourceCode.

Definition isSpaced (value : JsVal) : bool := strict_eq_str value "always".

Definition spaced : bool := isSpaced (options_0 context).

Definition isOptionSet (option : string) : bool :=
  match options_1 context with
  | Some o => strict_eq_bool (js_get o option) (negb spaced)
  | None => false
  end.

Definition getTypeDefault (option : string) : bool :=
  match options_1 context with
  | Some o => if js_in option o then isSpaced (js_get o option) else spaced
  | None => spaced
  end.

Definition options : Options.t := {|
  Options.spaced := spaced;
  Options.arraysInObjectsException := isOptionSet "arraysInObjects";
  Options.objectsInObjectsException := isOptionSet "objectsInObjects";
  Options.ObjectPattern := getTypeDefault "ObjectPattern";
  Options.ObjectExpression := getTypeDefault "ObjectExpression";
  Options.ImportDeclaration := getTypeDefault "ImportDeclaration";
  Options.ExportNamedDeclaration := getTypeDefault "ExportNamedDeclaration"
|}.

(** *** Helpers *)

Definition reportNoBeginningSpace (node : Node.t) (token : option Token.t)
  : Rule unit :=
  l <- get Token.loc token ;;
  v <- get Token.value token ;;
  context_report node (Loc.end_ l)
    ("There should be no space after '" ++ v ++ "'")%string.

Definition reportNoEndingSpace (node : Node.t) (token : option Token.t)
  : Rule unit :=
  l <- get Token.loc token ;;
  v <- get Token.value token ;;
  context_report node (Loc.start l)
    ("There should be no space before '" ++ v ++ "'")%string.

Definition reportRequiredBeginningSpace (node : Node.t) (token : option Token.t)
  : Rule unit :=
  l <- get Token.loc token ;;
  v <- get Token.value token ;;
  context_report node (Loc.end_ l)
    ("A space is required after '" ++ v ++ "'")%string.

Definition reportRequiredEndingSpace (node : Node.t) (token : option Token.t)
  : Rule unit :=
  l <- get Token.loc token ;;
  v <- get Token.value token ;;
  context_report node (Loc.start l)
    ("A space is required before '" ++ v ++ "'")%string.

(** The initialiser of [closingCurlyBraceMustBeSpaced] in
    [validateBraceSpacing]; [penultimate.value] is read only when the
    exception flag in front of it is set. *)
Definition closingCurlyBraceMustBeSpaced (spaced : bool)
    (penultimate : option Token.t) : Rule bool :=
  c <- js_or
         (js_and (Options.arraysInObjectsException options)
            (v <- get Token.value penultimate ;; ret (String.eqb v "]")))
         (js_and (Options.objectsInObjectsException options)
            (v <- get Token.value penultimate ;; ret (String.eqb v "}"))) ;;
  ret (if c then negb spaced else spaced).

Definition validateBraceSpacing (node : Node.t)
    (first second penultimate last : option Token.t) (nodeType : NodeType)
  : Rule unit :=
  let spaced := options_at options nodeType in
  closingCurlyBraceMustBeSpaced <- closingCurlyBraceMustBeSpaced spaced penultimate ;;
  sameFirst <- astUtils.isTokenOnSameLine first second ;;
  (if sameFirst then
     firstSpaced <- astUtils.isTokenSpaced first second ;;
     (if spaced && negb firstSpaced
      then reportRequiredBeginningSpace node first else ret tt) ;;
     (if negb spaced && firstSpaced
      then reportNoBeginningSpace node first else ret tt)
   else ret tt) ;;
  sameLast <- astUtils.isTokenOnSameLine penultimate last ;;
  (if sameLast then
     lastSpaced <- astUtils.isTokenSpaced penultimate last ;;
     (if closingCurlyBraceMustBeSpaced && negb lastSpaced
      then reportRequiredEndingSpace node last else ret tt) ;;
     (if negb closingCurlyBraceMustBeSpaced && lastSpaced
      then reportNoEndingSpace node last else ret tt)
   else ret tt).

Definition checkForObject (node : Node.t) (nodeType : NodeType) : Rule unit :=
  if (length (Node.properties node) =? 0)%nat then ret tt else
  first <- getFirstToken sourceCode (Some node) ;;
  last <- getLastToken sourceCode (Some node) ;;
  second <- getTokenAfter sourceCode first ;;
  penultimate <- getTokenBefore sourceCode last ;;
  validateBraceSpacing node first second penultimate last nodeType.

Definition checkForObjectPattern (node : Node.t) : Rule unit :=
  checkForObject node ObjectPattern.

Definition checkForObjectExpression (node : Node.t) : Rule unit :=
  checkForObject node ObjectExpression.

Definition checkForImport (node : Node.t) : Rule unit :=
  if (length (Node.specifiers node) =? 0)%nat then ret tt else
  let firstSpecifier := Node.specifiers node !! 0%nat in
  let lastSpecifier :=
    Node.specifiers node !! (length (Node.specifiers node) - 1)%nat in
  lastType <- get Node.type lastSpecifier ;;
  if negb (String.eqb lastType "ImportSpecifier") then ret tt else
  firstType <- get Node.type firstSpecifier ;;
  let firstSpecifier :=
    if negb (String.eqb firstType "ImportSpecifier")
    then Node.specifiers node !! 1%nat else firstSpecifier in
  first <- getTokenBefore sourceCode firstSpecifier ;;
  last <- getTokenAfter sourceCode lastSpecifier ;;
  lastValue <- get Token.value last ;;
  last <- (if String.eqb lastValue ","
           then getTokenAfter sourceCode last else ret last) ;;
  second <- getTokenAfter sourceCode first ;;
  penultimate <- getTokenBefore sourceCode last ;;
  validateBraceSpacing node first second penultimate last ImportDeclaration.

Definition checkForExport (node : Node.t) : Rule unit :=
  if (length (Node.specifiers node) =? 0)%nat then ret tt else
  let firstSpecifier := Node.specifiers node !! 0%nat in
  let lastSpecifier :=
    Node.specifiers node !! (length (Node.specifiers node) - 1)%nat in
  first <- getTokenBefore sourceCode firstSpecifier ;;
  last <- getTokenAfter sourceCode lastSpecifier ;;
  lastValue <- get Token.value last ;;
  last <- (if String.eqb lastValue ","
           then getTokenAfter sourceCode last else ret last) ;;
  second <- getTokenAfter sourceCode first ;;
  penultimate <- getTokenBefore sourceCode last ;;
  validateBraceSpacing node first second penultimate last ExportNamedDeclaration.

(** *** Public: the object returned to the framework *)

Definition handlers (key : NodeType) : Node.t -> Rule unit :=
  match key with
  | ObjectPattern => checkForObjectPattern
  | ObjectExpression => checkForObjectExpression
  | ImportDeclaration => checkForImport
  | ExportNamedDeclaration => checkForExport
  end.

End Rule.

(** ** Line-end whitespace scanner *)

Module NoTrailingSpaces.

Local Open Scope nat_scope.

Definition LF : ascii := ascii_of_nat 10.
Definition CR : ascii := ascii_of_nat 13.
Definition TAB : ascii := ascii_of_nat 9.
Definition SPACE : ascii := ascii_of_nat 32.

(** Modelled from the spec: lib/rules/no-trailing-spaces.js is not among
    the sources (only its tests are).  Section 4.3 speaks of "space/tab
    characters". *)
Definition is_space_or_tab (c : ascii) : bool :=
  Ascii.eqb c SPACE || Ascii.eqb c TAB.

(** Modelled from the spec: section 4.3 step 1, "split the buffer into
    physical lines preserving each line's trailing run of space/tab
    characters (but not the line terminator itself)".  The rule's source
    is missing; a line ends at LF or CR LF, and the terminator is kept
    beside the line so that offsets and fixes can be computed.  [cur] is
    the part of the current line read so far. *)
Fixpoint split_from (cur : string) (s : string) : list (string * string) :=
  match s with
  | EmptyString => [(cur, EmptyString)]
  | String c s' =>
      if Ascii.eqb c LF then (cur, String LF EmptyString) :: split_from EmptyString s'
      else
        match s' with
        | String c' s'' =>
            if Ascii.eqb c CR && Ascii.eqb c' LF
            then (cur, String CR (String LF EmptyString)) :: split_from EmptyString s''
            else split_from (cur ++ String c EmptyString)%string s'
        | EmptyString => split_from (cur ++ String c EmptyString)%string s'
        end
  end.

Definition split_lines (buffer : string) : list (string * string) :=
  split_from EmptyString buffer.

(** Modelled from the spec: section 4.3 step 2, the line without its
    "maximal trailing run of space/tab characters ending at end-of-line". *)
Fixpoint strip_trailing (line : string) : string :=
  match line with
  | EmptyString => EmptyString
  | String c rest =>
      match strip_trailing rest with
      | EmptyString =>
          if is_space_or_tab c then EmptyString else String c EmptyString
      | kept => String c kept
      end
  end.

(** Modelled from the spec: section 4.3 step 3, "the line consists
    entirely of whitespace". *)
Fixpoint is_blank (line : string) : bool :=
  match line with
  | EmptyString => true
  | String c rest => is_space_or_tab c && is_blank rest
  end.

(** Modelled from the spec: section 3, a violation has a message, a
    location and a fix span [(startOffset, endOffset, replacementText)];
    the scanner's location is a 1-based line and column. *)
Record Violation : Type := {
  message : string;
  line : nat;
  column : nat;
  fixSpan : nat * nat * string
}.

Definition trailing_message : string := "Trailing spaces not allowed.".

(** Modelled from the spec: section 4.3 steps 3 to 5 for the lines from
    number [lineNo] on, the first of which starts at buffer offset
    [offset]. *)
Fixpoint scan_lines (skipBlankLines : bool) (ls : list (string * string))
    (lineNo offset : nat) : list Violation :=
  match ls with
  | [] => []
  | (content, terminator) :: rest =>
      let kept := String.length (strip_trailing content) in
      let len := String.length content in
      let others :=
        scan_lines skipBlankLines rest (S lineNo)
          (offset + len + String.length terminator) in
      if skipBlankLines && is_blank content then others
      else if kept <? len then
        {| message := trailing_message;
           line := lineNo;
           column := kept + 1;
           fixSpan := (offset + kept, offset + len, EmptyString) |} :: others
      else others
  end.

(** Modelled from the spec: the whole-buffer scan entry point. *)
Definition scan (skipBlankLines : bool) (buffer : string) : list Violation :=
  scan_lines skipBlankLines (split_lines buffer) 1 0.

(** Modelled from the spec: a fix is a "text span replacement"; the text
    from [startOffset] up to [endOffset] is replaced. *)
Definition apply_fix (buffer : string) (fix_ : nat * nat * string) : string :=
  let '(startOffset, endOffset, text) := fix_ in
  (substring 0 startOffset buffer ++ text
   ++ substring endOffset (String.length buffer - endOffset) buffer)%string.

(** Modelled from the spec: the proposed fixes of one scan are applied
    from the last to the first, so that the offsets of the earlier ones
    still refer to the same characters. *)
Definition apply_fixes (buffer : string) (vs : list Violation) : string :=
  fold_right (fun v b => apply_fix b (fixSpan v)) buffer vs.

(** *** The cases of tests/lib/rules/no-trailing-spaces.js *)

Definition nl : string := String LF EmptyString.
Definition tab : string := String TAB EmptyString.

(** A test case: the code, the [skipBlankLines] option (off when the case
    gives no option or [{}]), the number of expected errors, the expected
    [(line, column)] pairs when the case states them, and the expected
    output of an invalid case. *)
Record TestCase : Type := {
  code : string;
  skipBlankLines : bool;
  errors : nat;
  positions : option (list (nat * nat));
  output : option string
}.

Definition valid (code : string) (skip : bool) : TestCase :=
  {| code := code; skipBlankLines := skip; errors := 0;
     positions := None; output := None |}.

Definition invalid (code : string) (skip : bool) (errors : nat)
    (positions : option (list (nat * nat))) (output : string) : TestCase :=
  {| code := code; skipBlankLines := skip; errors := errors;
     positions := positions; output := Some output |}.

Definition test_cases : list TestCase :=
  ([ valid "var a = 5;" false;
     valid ("var a = 5," ++ nl ++ "    b = 3;") false;
     valid "var a = 5;" false;
     valid ("var a = 5," ++ nl ++ "    b = 3;") false;
     valid ("var a = 5," ++ nl ++ "    b = 3;") true;
     valid "     " true;
     valid tab true;
     valid ("     " ++ nl ++ "    var c = 1;") true;
     valid (tab ++ nl ++ tab ++ "var c = 2;") true;
     valid (nl ++ "   var c = 3;") true;
     valid (nl ++ tab ++ "var c = 4;") true;
     invalid ("var a = 5;      " ++ nl) false 1 None ("var a = 5;" ++ nl);
     invalid ("var a = 5; " ++ nl ++ " b = 3; ") false 2 None
       ("var a = 5;" ++ nl ++ " b = 3;");
     invalid ("var a = 5;" ++ tab ++ nl ++ "  b = 3;") false 1 None
       ("var a = 5;" ++ nl ++ "  b = 3;");
     invalid ("     " ++ nl ++ "    var c = 1;") false 1 None
       (nl ++ "    var c = 1;");
     invalid (tab ++ nl ++ tab ++ "var c = 2;") false 1 None
       (nl ++ tab ++ "var c = 2;");
     invalid ("var a = 5;      " ++ nl) false 1 None ("var a = 5;" ++ nl);
     invalid ("var a = 5; " ++ nl ++ " b = 3; ") false 2
       (Some [(1, 11); (2, 8)]) ("var a = 5;" ++ nl ++ " b = 3;");
     invalid ("var a = 5;" ++ tab ++ nl ++ "  b = 3;") false 1
       (Some [(1, 11)]) ("var a = 5;" ++ nl ++ "  b = 3;");
     invalid ("     " ++ nl ++ "    var c = 1;") false 1
       (Some [(1, 1)]) (nl ++ "    var c = 1;");
     invalid (tab ++ nl ++ tab ++ "var c = 2;") false 1 None
       (nl ++ tab ++ "var c = 2;");
     invalid ("var a = 'bar';  " ++ nl ++ " " ++ nl ++ tab) true 1
       (Some [(1, 15)]) ("var a = 'bar';" ++ nl ++ " " ++ nl ++ tab)
   ])%string.

(** Whether the scanner does on a case what the case expects. *)
Definition passes (t : TestCase) : bool :=
  let vs := scan (skipBlankLines t) (code t) in
  (length vs =? errors t)
  && forallb (fun v => String.eqb (message v) trailing_message) vs
  && match positions t with
     | Some ps =>
         bool_decide (List.map (fun v => (line v, column v)) vs = ps)
     | None => true
     end
  && match output t with
     | Some out => String.eqb (apply_fixes (code t) vs) out
     | None => true
     end.

(** The buffer of the last invalid case of the rule's tests:
    "var a = 'bar';  <LF> <LF><TAB>". *)
Definition sample_blank_buffer : string :=
  ("var a = 'bar';  " ++ String LF EmptyString ++ " "
   ++ String LF EmptyString ++ String TAB EmptyString)%string.

(** The buffer of the invalid case with line and column expectations:
    "var a = 5; <LF> b = 3; ". *)
Definition sample_two_lines_buffer : string :=
  ("var a = 5; " ++ String LF EmptyString ++ " b = 3; ")%string.

End NoTrailingSpaces.

(** * Properties of the brace-spacing rule *)

(** ** Vocabulary of the statements *)

(** The diagnostics of a run that starts with an empty collection. *)
Definition reports_of {A} (m : Rule A) : list Report.t := snd (m []).

(** The two sides of a delimiter pair. *)
Inductive Side : Type := Opening | Closing.

(** [starts_with p s]: the text [s] begins with [p]. *)
Fixpoint starts_with (p s : string) : bool :=
  match p with
  | EmptyString => true
  | String c p' =>
      match s with
      | EmptyString => false
      | String d s' => Ascii.eqb c d && starts_with p' s'
      end
  end.

(** A diagnostic belongs to the opening side when its message speaks of
    the space after a token, to the closing side when it speaks of the
    space before one. *)
Definition is_side_report (side : Side) (r : Report.t) : bool :=
  match side with
  | Opening =>
      starts_with "A space is required after '" (Report.message r)
      || starts_with "There should be no space after '" (Report.message r)
  | Closing =>
      starts_with "A space is required before '" (Report.message r)
      || starts_with "There should be no space before '" (Report.message r)
  end.

Definition side_reports (side : Side) (rs : list Report.t) : list Report.t :=
  List.filter (is_side_report side) rs.

(** Both tokens exist and the left one ends on the line where the right
    one starts. *)
Definition on_same_line (left right : option Token.t) : bool :=
  match left, right with
  | Some l, Some r => astUtils.sameLine l r
  | _, _ => false
  end.

(** The pair of tokens a side compares. *)
Definition side_pair (side : Side) (first second penultimate last : option Token.t)
  : option Token.t * option Token.t :=
  match side with
  | Opening => (first, second)
  | Closing => (penultimate, last)
  end.

(** The table of section 4.1 of the specification. *)
Inductive Outcome : Type := OK | SpaceRequired | NoSpaceAllowed.

Definition outcome (mustBeSpaced isSpaced : bool) : Outcome :=
  match mustBeSpaced, isSpaced with
  | true, true => OK
  | true, false => SpaceRequired
  | false, true => NoSpaceAllowed
  | false, false => OK
  end.

(** What section 4.2 step 6 of the specification asks to be reported for
    an outcome: nothing, or one diagnostic at the boundary token (the end
    of the opening delimiter, the start of the closing one). *)
Definition expected_reports (side : Side) (node : Node.t) (boundary : Token.t)
    (o : Outcome) : list Report.t :=
  let at_ :=
    match side with
    | Opening => Loc.end_ (Token.loc boundary)
    | Closing => Loc.start (Token.loc boundary)
    end in
  let word :=
    match side with Opening => "after" | Closing => "before" end in
  match o with
  | OK => []
  | SpaceRequired =>
      [{| Report.node := node; Report.loc := at_;
          Report.message :=
            ("A space is required " ++ word ++ " '" ++ Token.value boundary ++ "'")%string |}]
  | NoSpaceAllowed =>
      [{| Report.node := node; Report.loc := at_;
          Report.message :=
            ("There should be no space " ++ word ++ " '" ++ Token.value boundary ++ "'")%string |}]
  end.

(** Section 4.2 step 4 of the specification: the closing-side requirement
    as a function of the resolved options, the construct's [spaced] and
    the penultimate token. *)
Definition closing_requirement (o : Options.t) (spaced : bool)
    (penultimate : Token.t) : bool :=
  if Options.arraysInObjectsException o && String.eqb (Token.value penultimate) "]"
     || Options.objectsInObjectsException o && String.eqb (Token.value penultimate) "}"
  then negb spaced else spaced.

(** Two resolved configurations that differ at most in the two exception
    flags. *)
Definition same_apart_from_exceptions (o1 o2 : Options.t) : Prop :=
  Options.spaced o1 = Options.spaced o2
  /\ Options.ObjectPattern o1 = Options.ObjectPattern o2
  /\ Options.ObjectExpression o1 = Options.ObjectExpression o2
  /\ Options.ImportDeclaration o1 = Options.ImportDeclaration o2
  /\ Options.ExportNamedDeclaration o1 = Options.ExportNamedDeclaration o2.

(** The construct's inner-element sequence. *)
Definition inner_elements (key : NodeType) (node : Node.t) : list Node.t :=
  match key with
  | ObjectPattern | ObjectExpression => Node.properties node
  | ImportDeclaration | ExportNamedDeclaration => Node.specifiers node
  end.

(** The specifier from which the opening boundary is resolved: for an
    import, a leading specifier that is not a named one is skipped. *)
Definition opening_specifier (key : NodeType) (node : Node.t) : option Node.t :=
  match key, Node.specifiers node with
  | ImportDeclaration, d :: rest =>
      if String.eqb (Node.type d) "ImportSpecifier" then Some d else head rest
  | _, l => head l
  end.

(** What one side of [validateBraceSpacing] appends. *)
Definition side_run (side : Side) (node : Node.t) (left right boundary : Token.t)
    (mustBeSpaced : bool) : list Report.t :=
  if astUtils.sameLine left right
  then expected_reports side node boundary
         (outcome mustBeSpaced (astUtils.spacedPair left right))
  else [].

(** ** Sample inputs *)

Module Sample.

(** A token of a one-line buffer: its columns are its offsets. *)
Definition tok (value : string) (from to : Z) : Token.t :=
  {| Token.value := value;
     Token.range := (from, to);
     Token.loc :=
       {| Loc.start := {| Position.line := 1; Position.column := from |};
          Loc.end_ := {| Position.line := 1; Position.column := to |} |} |}.

(** A token on a given line, for buffers of several lines. *)
Definition tok_at (ln : Z) (value : string) (from to : Z) : Token.t :=
  {| Token.value := value;
     Token.range := (from, to);
     Token.loc :=
       {| Loc.start := {| Position.line := ln; Position.column := from |};
          Loc.end_ := {| Position.line := ln; Position.column := to |} |} |}.

Definition leaf (type : string) (from to : Z) : Node.t :=
  Node.Build type (from, to) [] [].

(** [["always"]] and [["never"]]. *)
Definition always : Context :=
  {| options_0 := JStr "always"; options_1 := None |}.

Definition never : Context :=
  {| options_0 := JStr "never"; options_1 := None |}.

(** [["always", { arraysInObjects: false }]]. *)
Definition always_arrays_off : Context :=
  {| options_0 := JStr "always";
     options_1 := Some {[ "arraysInObjects" := JBool false ]} |}.

(** [["always", { ObjectExpression: "never", arraysInObjects: false }]]. *)
Definition always_objects_never_arrays_off : Context :=
  {| options_0 := JStr "always";
     options_1 :=
       Some (<[ "ObjectExpression" := JStr "never" ]>
               {[ "arraysInObjects" := JBool false ]}) |}.

(** [var y = {x: 'y'}] *)
Definition obj_tokens : list Token.t :=
  [ tok "var" 0 3; tok "y" 4 5; tok "=" 6 7; tok "{" 8 9; tok "x" 9 10;
    tok ":" 10 11; tok "'y'" 12 15; tok "}" 15 16 ].

Definition obj_source : SourceCode := {| tokens := obj_tokens |}.

Definition obj_node : Node.t :=
  Node.Build "ObjectExpression" (8, 16) [leaf "Property" 9 15] [].

(** [var y = {}] *)
Definition empty_obj_node : Node.t :=
  Node.Build "ObjectExpression" (8, 10) [] [].

(** [var y = { x: [1] }] *)
Definition arr_tokens : list Token.t :=
  [ tok "var" 0 3; tok "y" 4 5; tok "=" 6 7; tok "{" 8 9; tok "x" 10 11;
    tok ":" 11 12; tok "[" 13 14; tok "1" 14 15; tok "]" 15 16; tok "}" 17 18 ].

Definition arr_source : SourceCode := {| tokens := arr_tokens |}.

Definition arr_node : Node.t :=
  Node.Build "ObjectExpression" (8, 18) [leaf "Property" 10 16] [].

(** [import a, {b, c,} from 'x'] *)
Definition import_tokens : list Token.t :=
  [ tok "import" 0 6; tok "a" 7 8; tok "," 8 9; tok "{" 10 11; tok "b" 11 12;
    tok "," 12 13; tok "c" 14 15; tok "," 15 16; tok "}" 16 17;
    tok "from" 18 22; tok "'x'" 23 26 ].

Definition import_source : SourceCode := {| tokens := import_tokens |}.

Definition import_node : Node.t :=
  Node.Build "ImportDeclaration" (0, 26) []
    [ leaf "ImportDefaultSpecifier" 7 8; leaf "ImportSpecifier" 11 12;
      leaf "ImportSpecifier" 14 15 ].

(** [import * as ns from 'x'] *)
Definition namespace_import_node : Node.t :=
  Node.Build "ImportDeclaration" (0, 23) []
    [ leaf "ImportNamespaceSpecifier" 7 14 ].

(** [export {b, c,} from 'x'] *)
Definition export_tokens : list Token.t :=
  [ tok "export" 0 6; tok "{" 7 8; tok "b" 8 9; tok "," 9 10; tok "c" 11 12;
    tok "," 12 13; tok "}" 13 14; tok "from" 15 19; tok "'x'" 20 23 ].

Definition export_source : SourceCode := {| tokens := export_tokens |}.

Definition export_node : Node.t :=
  Node.Build "ExportNamedDeclaration" (0, 23) []
    [ leaf "ExportSpecifier" 8 9; leaf "ExportSpecifier" 11 12 ].

End Sample.

(** ** Vocabulary of the further properties *)

(** The same first option with another second options object. *)
Definition with_options_1 (context : Context)
    (o : option (gmap string JsVal)) : Context :=
  {| options_0 := options_0 context; options_1 := o |}.

(** The six property names the rule reads from the second options object. *)
Definition known_keys : list string :=
  [ "arraysInObjects"; "objectsInObjects"; "ObjectPattern"; "ObjectExpression";
    "ImportDeclaration"; "ExportNamedDeclaration" ].

(** The two property names of the exception flags. *)
Definition exception_keys : list string :=
  [ "arraysInObjects"; "objectsInObjects" ].

(** All four boundary tokens exist. *)
Definition all_present (first second penultimate last : option Token.t) : bool :=
  match first, second, penultimate, last with
  | Some _, Some _, Some _, Some _ => true
  | _, _, _, _ => false
  end.

(** A diagnostic of [node] anchored at [boundary]: one of the two
    messages of a side, at the end of the boundary token for the opening
    side and at its start for the closing side. *)
Definition anchored_at (node : Node.t) (boundary : Token.t) (r : Report.t) : Prop :=
  exists side,
    [r] = expected_reports side node boundary SpaceRequired
    \/ [r] = expected_reports side node boundary NoSpaceAllowed.

(** A token handed to [validateBraceSpacing] is missing or is a token of
    the stream. *)
Definition of_stream (sc : SourceCode) (t : option Token.t) : Prop :=
  match t with
  | Some x => x ∈ tokens sc
  | None => True
  end.

Module Sample2.

(** No option at all: [context.options] is empty. *)
Definition no_options : Context :=
  {| options_0 := JUndefined; options_1 := None |}.

(** [["always", { arraysInObjects: true }]]. *)
Definition always_arrays_on : Context :=
  {| options_0 := JStr "always";
     options_1 := Some {[ "arraysInObjects" := JBool true ]} |}.

(** [["always", {}]]. *)
Definition always_empty : Context :=
  {| options_0 := JStr "always"; options_1 := Some ∅ |}.

(** [["never", { ObjectExpression: "always" }]]. *)
Definition never_objects_always : Context :=
  {| options_0 := JStr "never";
     options_1 := Some {[ "ObjectExpression" := JStr "always" ]} |}.

(** [["always", { ObjectExpression: "always" }]]. *)
Definition always_objects_always : Context :=
  {| options_0 := JStr "always";
     options_1 := Some {[ "ObjectExpression" := JStr "always" ]} |}.

(** [export {b, c} from 'x'] *)
Definition export_plain_tokens : list Token.t :=
  [ Sample.tok "export" 0 6; Sample.tok "{" 7 8; Sample.tok "b" 8 9;
    Sample.tok "," 9 10; Sample.tok "c" 11 12; Sample.tok "}" 12 13;
    Sample.tok "from" 14 18; Sample.tok "'x'" 19 22 ].

Definition export_plain_source : SourceCode := {| tokens := export_plain_tokens |}.

Definition export_plain_node : Node.t :=
  Node.Build "ExportNamedDeclaration" (0, 22) []
    [ Sample.leaf "ExportSpecifier" 8 9; Sample.leaf "ExportSpecifier" 11 12 ].

End Sample2.

(** ** Evaluation lemmas *)

Ltac run_rule :=
  cbv beta iota zeta delta
    [bind ret throw get js_or js_and context_report
     astUtils.isTokenOnSameLine astUtils.isTokenSpaced
     reportRequiredBeginningSpace reportNoBeginningSpace
     reportRequiredEndingSpace reportNoEndingSpace fst snd id] in *.

Lemma closingCurlyBraceMustBeSpaced_run context spaced penultimate log :
  closingCurlyBraceMustBeSpaced context spaced (Some penultimate) log
  = (Normal (closing_requirement (options context) spaced penultimate), log).
Proof.
  unfold closingCurlyBraceMustBeSpaced, closing_requirement. run_rule.
  destruct (Options.arraysInObjectsException (options context));
    destruct (Options.objectsInObjectsException (options context));
    cbn; try reflexivity;
    destruct (String.eqb (Token.value penultimate) "]"); cbn; try reflexivity;
    destruct (String.eqb (Token.value penultimate) "}"); reflexivity.
Qed.

Lemma validateBraceSpacing_run context node first second penultimate last nodeType log :
  validateBraceSpacing context node (Some first) (Some second)
    (Some penultimate) (Some last) nodeType log
  = (Normal tt,
     log
     ++ side_run Opening node first second first
          (options_at (options context) nodeType)
     ++ side_run Closing node penultimate last last
          (closing_requirement (options context)
             (options_at (options context) nodeType) penultimate)).
Proof.
  unfold validateBraceSpacing.
  unfold bind at 1. rewrite closingCurlyBraceMustBeSpaced_run.
  unfold side_run.
  destruct (astUtils.sameLine first second) eqn:E1;
    destruct (astUtils.sameLine penultimate last) eqn:E2;
    destruct (options_at (options context) nodeType);
    destruct (closing_requirement _ _ _);
    destruct (astUtils.spacedPair first second) eqn:E3;
    destruct (astUtils.spacedPair penultimate last) eqn:E4;
    do 3 (run_rule; rewrite ?E1, ?E2, ?E3, ?E4; cbn);
    rewrite ?app_nil_r, <- ?app_assoc; reflexivity.
Qed.

Lemma side_reports_expected_same side node boundary o :
  side_reports side (expected_reports side node boundary o)
  = expected_reports side node boundary o.
Proof. destruct side, o; reflexivity. Qed.

Lemma side_reports_expected_other side side' node boundary o :
  side <> side' ->
  side_reports side (expected_reports side' node boundary o) = [].
Proof. destruct side, side', o; intros H; try reflexivity; contradiction. Qed.

Lemma side_reports_run_same side node left right boundary must :
  side_reports side (side_run side node left right boundary must)
  = side_run side node left right boundary must.
Proof.
  unfold side_run. destruct (astUtils.sameLine left right).
  - apply side_reports_expected_same.
  - reflexivity.
Qed.

Lemma side_reports_run_other side side' node left right boundary must :
  side <> side' ->
  side_reports side (side_run side' node left right boundary must) = [].
Proof.
  intros H. unfold side_run. destruct (astUtils.sameLine left right).
  - now apply side_reports_expected_other.
  - reflexivity.
Qed.

Lemma side_reports_app side rs1 rs2 :
  side_reports side (rs1 ++ rs2) = side_reports side rs1 ++ side_reports side rs2.
Proof. apply List.filter_app. Qed.

Lemma expected_reports_length side node boundary o :
  (length (expected_reports side node boundary o) <= 1)%nat.
Proof. destruct o; cbn; lia. Qed.

Lemma side_run_length side node left right boundary must :
  (length (side_run side node left right boundary must) <= 1)%nat.
Proof.
  unfold side_run. destruct (astUtils.sameLine left right).
  - apply expected_reports_length.
  - cbn; lia.
Qed.

(** The opening-side diagnostics of a run whose penultimate token exists:
    they depend on the first two tokens and on [options[nodeType]] only. *)
Lemma opening_reports_of_validateBraceSpacing
    context node first second penultimate last nodeType :
  side_reports Opening
    (reports_of
       (validateBraceSpacing context node first second (Some penultimate) last nodeType))
  = match first, second with
    | Some f, Some s =>
        side_run Opening node f s f (options_at (options context) nodeType)
    | _, _ => []
    end.
Proof.
  unfold reports_of.
  destruct first as [f|], second as [s|], last as [l|];
    try rewrite validateBraceSpacing_run;
    cbn [snd app];
    rewrite ?side_reports_app, ?side_reports_run_same,
      ?side_reports_run_other, ?app_nil_r by discriminate;
    try reflexivity.
  all: unfold validateBraceSpacing; unfold bind at 1;
    rewrite closingCurlyBraceMustBeSpaced_run; unfold side_run.
  all: try (run_rule; reflexivity).
  destruct (astUtils.sameLine f s) eqn:E1;
    destruct (options_at (options context) nodeType);
    destruct (astUtils.spacedPair f s) eqn:E3;
    do 3 (run_rule; rewrite ?E1, ?E3; cbn); reflexivity.
Qed.

(** Without a penultimate token the initialiser throws as soon as one
    exception flag is set, and is [spaced] otherwise. *)
Lemma closingCurlyBraceMustBeSpaced_null context spaced log :
  closingCurlyBraceMustBeSpaced context spaced None log
  = if Options.arraysInObjectsException (options context)
       || Options.objectsInObjectsException (options context)
    then (Throw TypeError, log) else (Normal spaced, log).
Proof.
  unfold closingCurlyBraceMustBeSpaced. run_rule.
  destruct (Options.arraysInObjectsException (options context));
    destruct (Options.objectsInObjectsException (options context));
    reflexivity.
Qed.

(** ** Claims about [validateBraceSpacing] *)

(** C1. For boundary tokens that exist, a run of [validateBraceSpacing]
    completes normally and appends the opening-side diagnostics followed by
    the closing-side ones.  On a side whose two tokens lie on the same
    line the diagnostics are those of the four-outcome table: required and
    unspaced gives one "space required" report, not required and spaced
    gives one "no space" report, and the two agreeing cases give nothing.
    Each side reports at most once. *)
Theorem validateBraceSpacing_four_outcomes
    context node first second penultimate last nodeType log :
  let spaced := options_at (options context) nodeType in
  let closingMust := closing_requirement (options context) spaced penultimate in
  exists opening closing : list Report.t,
    validateBraceSpacing context node (Some first) (Some second)
      (Some penultimate) (Some last) nodeType log
    = (Normal tt, log ++ opening ++ closing)
    /\ side_reports Opening (opening ++ closing) = opening
    /\ side_reports Closing (opening ++ closing) = closing
    /\ (astUtils.sameLine first second = true ->
        opening
        = expected_reports Opening node first
            (outcome spaced (astUtils.spacedPair first second)))
    /\ (astUtils.sameLine penultimate last = true ->
        closing
        = expected_reports Closing node last
            (outcome closingMust (astUtils.spacedPair penultimate last)))
    /\ (length opening <= 1)%nat
    /\ (length closing <= 1)%nat.
Proof.
  intros spaced closingMust.
  exists (side_run Opening node first second first spaced),
         (side_run Closing node penultimate last last closingMust).
  split; [apply validateBraceSpacing_run|].
  rewrite !side_reports_app, !side_reports_run_same.
  rewrite !side_reports_run_other by discriminate.
  rewrite app_nil_r. cbn [app].
  repeat split; try apply side_run_length.
  - intros H. unfold side_run. rewrite H. reflexivity.
  - intros H. unfold side_run. rewrite H. reflexivity.
Qed.

(** C3. A side of the delimiter pair is checked only when its two tokens
    lie on the same physical line: whenever the two tokens of a side (the
    opening delimiter and the token after it, or the penultimate token and
    the closing delimiter) are not on one line, a run of
    [validateBraceSpacing] reports nothing on that side, for every node,
    every configuration and every other token. *)
Theorem cross_line_pair_never_flagged context node first second penultimate last nodeType side :
  on_same_line (fst (side_pair side first second penultimate last))
               (snd (side_pair side first second penultimate last)) = false ->
  side_reports side
    (reports_of (validateBraceSpacing context node first second penultimate last nodeType))
  = [].
Proof.
  intros H.
  destruct first as [f|], second as [s|], penultimate as [p|], last as [l|].
  1: { unfold reports_of. rewrite validateBraceSpacing_run. cbn [snd app].
       rewrite side_reports_app.
       destruct side; cbn [side_pair fst snd on_same_line] in H;
         rewrite side_reports_run_same, side_reports_run_other by discriminate;
         unfold side_run; rewrite H; reflexivity. }
  all: destruct side; cbn [side_pair fst snd on_same_line] in H; try discriminate H.
  all: try (rewrite opening_reports_of_validateBraceSpacing;
            try reflexivity; unfold side_run; rewrite H; reflexivity).
  all: unfold reports_of, validateBraceSpacing; unfold bind at 1;
    rewrite ?closingCurlyBraceMustBeSpaced_run, ?closingCurlyBraceMustBeSpaced_null.
  all: destruct (Options.arraysInObjectsException (options context));
    destruct (Options.objectsInObjectsException (options context));
    destruct (options_at (options context) nodeType);
    cbn [orb].
  all: try (run_rule; reflexivity).
  all: destruct (astUtils.sameLine f s) eqn:E1;
    destruct (astUtils.spacedPair f s) eqn:E3;
    do 3 (run_rule; rewrite ?E1, ?E3; cbn); try reflexivity; try discriminate H.
Qed.

Lemma cross_line_pair_never_flagged_witness :
  on_same_line (Some (Sample.tok_at 1 "{" 0 1)) (Some (Sample.tok_at 2 "a" 4 5)) = false
  /\ side_reports Opening
       (reports_of
          (validateBraceSpacing Sample.never Sample.obj_node
             (Some (Sample.tok_at 1 "{" 0 1)) (Some (Sample.tok_at 2 "a" 4 5))
             (Some (Sample.tok_at 2 "a" 4 5)) (Some (Sample.tok_at 3 "}" 6 7))
             ObjectExpression))
     = [].
Proof.
  split; [reflexivity|].
  apply (cross_line_pair_never_flagged Sample.never Sample.obj_node
           (Some (Sample.tok_at 1 "{" 0 1)) (Some (Sample.tok_at 2 "a" 4 5))
           (Some (Sample.tok_at 2 "a" 4 5)) (Some (Sample.tok_at 3 "}" 6 7))
           ObjectExpression Opening).
  reflexivity.
Defined.

(** C4. With a penultimate token at hand, the initialiser of
    [closingCurlyBraceMustBeSpaced] completes normally, reports nothing,
    and its value is the negation of the construct's [spaced] exactly when
    the arrays-in-objects exception is enabled and the penultimate token
    reads "]" or the objects-in-objects exception is enabled and it reads
    "}"; in every other case the value is [spaced] itself. *)
Theorem closing_requirement_inverted_iff context spaced penultimate log :
  let inverted :=
    (Options.arraysInObjectsException (options context) = true
     /\ Token.value penultimate = "]")
    \/ (Options.objectsInObjectsException (options context) = true
        /\ Token.value penultimate = "}") in
  exists must : bool,
    closingCurlyBraceMustBeSpaced context spaced (Some penultimate) log
    = (Normal must, log)
    /\ (must = negb spaced <-> inverted)
    /\ (~ inverted -> must = spaced).
Proof.
  intros inverted. subst inverted.
  eexists. split; [apply closingCurlyBraceMustBeSpaced_run|].
  unfold closing_requirement.
  destruct (Options.arraysInObjectsException (options context));
    destruct (Options.objectsInObjectsException (options context));
    destruct (String.eqb_spec (Token.value penultimate) "]") as [E1|E1];
    destruct (String.eqb_spec (Token.value penultimate) "}") as [E2|E2];
    cbn [andb orb]; (split; [split|]); intros; auto;
    try (exfalso; destruct spaced; discriminate);
    try tauto;
    try (exfalso; intuition congruence).
Qed.

(** C5. Two runs of [validateBraceSpacing] on the same node and tokens,
    under configurations that differ at most in
    [arraysInObjectsException] and [objectsInObjectsException], report the
    same opening-side diagnostics.  The penultimate token is one that
    exists, as it does in every parsed construct with an inner element;
    the other three tokens may be missing. *)
Theorem exception_flags_leave_opening_side
    context1 context2 node first second penultimate last nodeType :
  same_apart_from_exceptions (options context1) (options context2) ->
  side_reports Opening
    (reports_of
       (validateBraceSpacing context1 node first second (Some penultimate) last nodeType))
  = side_reports Opening
      (reports_of
         (validateBraceSpacing context2 node first second (Some penultimate) last nodeType)).
Proof.
  intros (_ & HP & HE & HI & HX).
  rewrite !opening_reports_of_validateBraceSpacing.
  replace (options_at (options context2) nodeType)
    with (options_at (options context1) nodeType)
    by (destruct nodeType; cbn [options_at]; assumption).
  reflexivity.
Qed.

Lemma exception_flags_leave_opening_side_witness :
  same_apart_from_exceptions (options Sample.always) (options Sample.always_arrays_off)
  /\ side_reports Opening
       (reports_of
          (validateBraceSpacing Sample.always Sample.arr_node
             (Some (Sample.tok "{" 8 9)) (Some (Sample.tok "x" 9 10))
             (Some (Sample.tok "]" 15 16)) (Some (Sample.tok "}" 17 18))
             ObjectExpression))
     = side_reports Opening
         (reports_of
            (validateBraceSpacing Sample.always_arrays_off Sample.arr_node
               (Some (Sample.tok "{" 8 9)) (Some (Sample.tok "x" 9 10))
               (Some (Sample.tok "]" 15 16)) (Some (Sample.tok "}" 17 18))
               ObjectExpression)).
Proof.
  assert (H : same_apart_from_exceptions
                (options Sample.always) (options Sample.always_arrays_off))
    by (repeat split; vm_compute; reflexivity).
  split; [exact H|].
  exact (exception_flags_leave_opening_side Sample.always Sample.always_arrays_off
           Sample.arr_node (Some (Sample.tok "{" 8 9)) (Some (Sample.tok "x" 9 10))
           (Sample.tok "]" 15 16) (Some (Sample.tok "}" 17 18)) ObjectExpression H).
Defined.

(** ** Claims about the handlers *)

Ltac run_accessors :=
  cbv beta iota zeta delta
    [getTokenBefore getTokenAfter getFirstToken getLastToken
     range_of Ranged_node Ranged_token
     bind ret throw get fst snd id] in *.

(** [specifiers[specifiers.length - 1]] is the last specifier. *)
Lemma last_specifier_lookup (l : list Node.t) :
  l !! (length l - 1)%nat = last l.
Proof. rewrite last_lookup. f_equal. lia. Qed.

(** The import and export handlers, once the boundary tokens they look
    for exist, hand [validateBraceSpacing] these four tokens. *)
Lemma check_specifiers_resolved context sc key node fs ls first after closing log :
  key = ImportDeclaration \/ key = ExportNamedDeclaration ->
  opening_specifier key node = Some fs ->
  last (Node.specifiers node) = Some ls ->
  (key = ImportDeclaration -> Node.type ls = "ImportSpecifier") ->
  tokenBefore sc (Node.range fs) = Some first ->
  tokenAfter sc (Node.range ls) = Some after ->
  (if String.eqb (Token.value after) ","
   then tokenAfter sc (Token.range after) else Some after) = Some closing ->
  handlers context sc key node log
  = validateBraceSpacing context node (Some first)
      (tokenAfter sc (Token.range first))
      (tokenBefore sc (Token.range closing)) (Some closing) key log.
Proof.
  intros Hkey Hfs Hls Hty Hfirst Hafter Hclosing.
  unfold opening_specifier in Hfs.
  destruct (Node.specifiers node) as [|d rest] eqn:Hspec; [discriminate Hls|].
  destruct Hkey as [-> | ->]; cbn [handlers].
  - specialize (Hty eq_refl).
    unfold checkForImport. rewrite Hspec, last_specifier_lookup, Hls.
    cbn [length Nat.eqb lookup list_lookup].
    run_accessors. rewrite Hty. cbn [negb].
    destruct (String.eqb (Node.type d) "ImportSpecifier") eqn:Hd; cbn [negb].
    + injection Hfs as <-. rewrite Hfirst, Hafter.
      destruct (String.eqb (Token.value after) ",");
        [rewrite Hclosing|injection Hclosing as <-]; reflexivity.
    + replace (rest !! 0%nat) with (Some fs) by (destruct rest; exact (eq_sym Hfs)).
      rewrite Hfirst, Hafter.
      destruct (String.eqb (Token.value after) ",");
        [rewrite Hclosing|injection Hclosing as <-]; reflexivity.
  - unfold checkForExport. rewrite Hspec, last_specifier_lookup, Hls.
    cbn [length Nat.eqb lookup list_lookup]. cbn [head] in Hfs.
    injection Hfs as <-.
    run_accessors. rewrite Hfirst, Hafter.
    destruct (String.eqb (Token.value after) ",");
      [rewrite Hclosing|injection Hclosing as <-]; reflexivity.
Qed.

(** C2. For each of the four checked constructs and every configuration
    and token stream, the handler of a construct whose inner-element
    sequence (properties or specifiers) is empty completes normally and
    leaves the diagnostics as they were. *)
Theorem empty_construct_no_diagnostic context sc key node log :
  inner_elements key node = [] ->
  handlers context sc key node log = (Normal tt, log).
Proof.
  intros H.
  destruct key; cbn [inner_elements] in H; cbn [handlers];
    unfold checkForObjectPattern, checkForObjectExpression, checkForObject,
      checkForImport, checkForExport;
    rewrite H; reflexivity.
Qed.

Lemma empty_construct_no_diagnostic_witness :
  inner_elements ObjectExpression Sample.empty_obj_node = []
  /\ handlers Sample.always Sample.obj_source ObjectExpression Sample.empty_obj_node []
     = (Normal tt, []).
Proof.
  split; [reflexivity|].
  apply (empty_construct_no_diagnostic Sample.always Sample.obj_source
           ObjectExpression Sample.empty_obj_node []).
  reflexivity.
Defined.

(** C6. [checkForImport] completes normally without any diagnostic when
    the specifier list is empty or its last specifier is not an
    [ImportSpecifier] (bare, default-only and namespace imports).  When
    the first specifier is not an [ImportSpecifier] and the last one is,
    there is a second specifier and the opening boundary is the token
    before it: once the boundary tokens exist, the run is the run of
    [validateBraceSpacing] on that token, the token after it, the token
    before the closing boundary and the closing boundary. *)
Theorem checkForImport_skips_or_starts_at_named context sc node log :
  (Node.specifiers node = []
   \/ (exists ls, last (Node.specifiers node) = Some ls
                  /\ Node.type ls <> "ImportSpecifier") ->
   checkForImport context sc node log = (Normal tt, log))
  /\ (forall d ls,
        head (Node.specifiers node) = Some d ->
        Node.type d <> "ImportSpecifier" ->
        last (Node.specifiers node) = Some ls ->
        Node.type ls = "ImportSpecifier" ->
        exists named,
          Node.specifiers node !! 1%nat = Some named
          /\ forall first after closing,
               tokenBefore sc (Node.range named) = Some first ->
               tokenAfter sc (Node.range ls) = Some after ->
               (if String.eqb (Token.value after) ","
                then tokenAfter sc (Token.range after) else Some after)
               = Some closing ->
               checkForImport context sc node log
               = validateBraceSpacing context node (Some first)
                   (tokenAfter sc (Token.range first))
                   (tokenBefore sc (Token.range closing)) (Some closing)
                   ImportDeclaration log).
Proof.
  split.
  - intros [H | (ls & Hls & Hty)]; unfold checkForImport.
    + rewrite H. reflexivity.
    + destruct (Node.specifiers node) as [|d rest] eqn:Hspec; [reflexivity|].
      rewrite last_specifier_lookup, Hls.
      cbn [length Nat.eqb]. run_accessors.
      apply String.eqb_neq in Hty. rewrite Hty. reflexivity.
  - intros d ls Hd Hdty Hls Hlsty.
    destruct (Node.specifiers node) as [|d' [|named rest]] eqn:Hspec;
      [discriminate Hd| |].
    + cbn in Hd, Hls. congruence.
    + cbn [head] in Hd. injection Hd as ->.
      exists named. split; [reflexivity|].
      intros first after closing Hfirst Hafter Hclosing.
      apply (check_specifiers_resolved context sc ImportDeclaration node
               named ls first after closing log); auto.
      * unfold opening_specifier. rewrite Hspec.
        apply String.eqb_neq in Hdty. rewrite Hdty. reflexivity.
      * rewrite Hspec. exact Hls.
Qed.

Lemma checkForImport_skips_or_starts_at_named_witness :
  checkForImport Sample.always Sample.import_source Sample.namespace_import_node []
  = (Normal tt, [])
  /\ exists named,
       Node.specifiers Sample.import_node !! 1%nat = Some named
       /\ checkForImport Sample.always Sample.import_source Sample.import_node []
          = validateBraceSpacing Sample.always Sample.import_node
              (Some (Sample.tok "{" 10 11))
              (tokenAfter Sample.import_source (10, 11))
              (tokenBefore Sample.import_source (16, 17))
              (Some (Sample.tok "}" 16 17)) ImportDeclaration [].
Proof.
  split.
  - apply (proj1 (checkForImport_skips_or_starts_at_named
                    Sample.always Sample.import_source
                    Sample.namespace_import_node [])).
    right. exists (Sample.leaf "ImportNamespaceSpecifier" 7 14).
    split; [reflexivity|discriminate].
  - destruct (proj2 (checkForImport_skips_or_starts_at_named
                       Sample.always Sample.import_source Sample.import_node [])
                (Sample.leaf "ImportDefaultSpecifier" 7 8)
                (Sample.leaf "ImportSpecifier" 14 15)
                eq_refl ltac:(discriminate) eq_refl eq_refl)
      as (named & Hnamed & Hrun).
    exists named. split; [exact Hnamed|].
    injection Hnamed as <-.
    apply (Hrun (Sample.tok "{" 10 11) (Sample.tok "," 15 16) (Sample.tok "}" 16 17));
      reflexivity.
Defined.

(** C7. For an import (whose last specifier is an [ImportSpecifier]) or an
    export declaration in which the token after the last specifier is a
    comma: once the boundary tokens exist, the handler runs
    [validateBraceSpacing] with the token after that comma as [last] and
    the token before that token as [penultimate]; that closing boundary
    starts at or after the end of the comma, and is not the comma when the
    comma has at least one character. *)
Theorem trailing_comma_stepped_over
    context sc key node fs ls first comma closing log :
  key = ImportDeclaration \/ key = ExportNamedDeclaration ->
  opening_specifier key node = Some fs ->
  last (Node.specifiers node) = Some ls ->
  (key = ImportDeclaration -> Node.type ls = "ImportSpecifier") ->
  tokenBefore sc (Node.range fs) = Some first ->
  tokenAfter sc (Node.range ls) = Some comma ->
  Token.value comma = "," ->
  tokenAfter sc (Token.range comma) = Some closing ->
  handlers context sc key node log
  = validateBraceSpacing context node (Some first)
      (tokenAfter sc (Token.range first))
      (tokenBefore sc (Token.range closing)) (Some closing) key log
  /\ snd (Token.range comma) <= fst (Token.range closing)
  /\ (fst (Token.range comma) < snd (Token.range comma) -> closing <> comma).
Proof.
  intros Hkey Hfs Hls Hty Hfirst Hcomma Hvalue Hclosing.
  assert (Hafter : snd (Token.range comma) <= fst (Token.range closing)).
  { unfold tokenAfter in Hclosing.
    apply head_Some_elem_of, list_elem_of_filter in Hclosing.
    exact (proj1 Hclosing). }
  split; [|split].
  - apply (check_specifiers_resolved context sc key node fs ls first comma closing log);
      auto.
    rewrite Hvalue. exact Hclosing.
  - exact Hafter.
  - intros Hlen ->. lia.
Qed.

Lemma trailing_comma_stepped_over_witness :
  handlers Sample.always Sample.export_source ExportNamedDeclaration Sample.export_node []
  = validateBraceSpacing Sample.always Sample.export_node
      (Some (Sample.tok "{" 7 8))
      (tokenAfter Sample.export_source (7, 8))
      (tokenBefore Sample.export_source (13, 14))
      (Some (Sample.tok "}" 13 14)) ExportNamedDeclaration []
  /\ snd (Token.range (Sample.tok "," 12 13)) <= fst (Token.range (Sample.tok "}" 13 14))
  /\ (fst (Token.range (Sample.tok "," 12 13)) < snd (Token.range (Sample.tok "," 12 13)) ->
      Sample.tok "}" 13 14 <> Sample.tok "," 12 13).
Proof.
  apply (trailing_comma_stepped_over Sample.always Sample.export_source
           ExportNamedDeclaration Sample.export_node
           (Sample.leaf "ExportSpecifier" 8 9) (Sample.leaf "ExportSpecifier" 11 12)
           (Sample.tok "{" 7 8) (Sample.tok "," 12 13) (Sample.tok "}" 13 14) []).
  - right; reflexivity.
  - reflexivity.
  - reflexivity.
  - discriminate.
  - reflexivity.
  - reflexivity.
  - reflexivity.
  - reflexivity.
Defined.

(** Section 8 of the specification: under "always", [var y = {x: 'y'}]
    gets "A space is required after '{'" and "A space is required before
    '}'", and nothing under "never". *)
Lemma unspaced_object_example :
  List.map Report.message
    (reports_of (handlers Sample.always Sample.obj_source ObjectExpression
                   Sample.obj_node))
  = ["A space is required after '{'"; "A space is required before '}'"]
  /\ reports_of (handlers Sample.never Sample.obj_source ObjectExpression
                   Sample.obj_node) = [].
Proof. split; vm_compute; reflexivity. Qed.

(** ** Claims about the resolved options *)

Lemma isOptionSet_iff context key :
  isOptionSet context key = true
  <-> exists o, options_1 context = Some o
                /\ o !! key = Some (JBool (negb (spaced context))).
Proof.
  unfold isOptionSet, js_get.
  destruct (options_1 context) as [o|].
  - destruct (o !! key) as [[|b|s]|] eqn:E; cbn.
    + split; [discriminate|]. intros (o' & Ho & Hk). congruence.
    + split.
      * intros H. apply Bool.eqb_prop in H. subst b. eauto.
      * intros (o' & Ho & Hk). injection Ho as <-. rewrite E in Hk.
        injection Hk as ->. apply Bool.eqb_reflx.
    + split; [discriminate|]. intros (o' & Ho & Hk). congruence.
    + split; [discriminate|]. intros (o' & Ho & Hk). congruence.
  - split; [discriminate|]. intros (o' & Ho & _). discriminate.
Qed.

(** C10, as the code has it.  Each exception flag is [isOptionSet] of its
    key, and [isOptionSet] holds exactly when the second options object
    is present and its entry is the boolean opposite to the global
    [spaced]; with the entry equal to the global [spaced], or missing, or
    with no second object, the flag is off.  An enabled exception that
    meets its token always makes the closing-side requirement the
    negation of the checked construct's own [spaced] value, so it flips
    the requirement away from the global default exactly when that value
    equals the global [spaced].  That is so whenever the second options
    object is absent or has no entry for the construct; with an entry,
    the construct's value is spaced exactly when the entry is "always". *)
Theorem exception_flags_resolution context key :
  Options.arraysInObjectsException (options context)
  = isOptionSet context "arraysInObjects"
  /\ Options.objectsInObjectsException (options context)
     = isOptionSet context "objectsInObjects"
  /\ (isOptionSet context key = true
      <-> exists o, options_1 context = Some o
                    /\ o !! key = Some (JBool (negb (spaced context))))
  /\ (options_1 context = None -> isOptionSet context key = false)
  /\ (forall o, options_1 context = Some o -> o !! key = None ->
                isOptionSet context key = false)
  /\ (forall o, options_1 context = Some o ->
                o !! key = Some (JBool (spaced context)) ->
                isOptionSet context key = false)
  /\ (forall nodeType penultimate log,
        (Options.arraysInObjectsException (options context) = true
         /\ Token.value penultimate = "]")
        \/ (Options.objectsInObjectsException (options context) = true
            /\ Token.value penultimate = "}") ->
        closingCurlyBraceMustBeSpaced context
          (options_at (options context) nodeType) (Some penultimate) log
        = (Normal (negb (options_at (options context) nodeType)), log))
  /\ (forall nodeType,
        options_1 context = None
        \/ (exists o, options_1 context = Some o
                      /\ o !! nodeType_key nodeType = None) ->
        options_at (options context) nodeType = spaced context)
  /\ (forall nodeType penultimate log must,
        (Options.arraysInObjectsException (options context) = true
         /\ Token.value penultimate = "]")
        \/ (Options.objectsInObjectsException (options context) = true
            /\ Token.value penultimate = "}") ->
        closingCurlyBraceMustBeSpaced context
          (options_at (options context) nodeType) (Some penultimate) log
        = (Normal must, log) ->
        (must = negb (spaced context)
         <-> options_at (options context) nodeType = spaced context))
  /\ (forall nodeType o v,
        options_1 context = Some o ->
        o !! nodeType_key nodeType = Some v ->
        options_at (options context) nodeType = isSpaced v).
Proof.
  assert (Hflip : forall nodeType penultimate log,
    (Options.arraysInObjectsException (options context) = true
     /\ Token.value penultimate = "]")
    \/ (Options.objectsInObjectsException (options context) = true
        /\ Token.value penultimate = "}") ->
    closingCurlyBraceMustBeSpaced context
      (options_at (options context) nodeType) (Some penultimate) log
    = (Normal (negb (options_at (options context) nodeType)), log)).
  { intros nodeType penultimate log H.
    rewrite closingCurlyBraceMustBeSpaced_run. unfold closing_requirement.
    destruct H as [[-> ->] | [-> ->]]; cbn [andb orb String.eqb];
      rewrite ?orb_true_r; reflexivity. }
  split; [reflexivity|]. split; [reflexivity|].
  split; [apply isOptionSet_iff|].
  split; [|split; [|split; [|split; [|split; [|split]]]]].
  7: { intros nodeType o v Ho Hv.
       destruct nodeType; cbn [options_at options Options.ObjectPattern
         Options.ObjectExpression Options.ImportDeclaration
         Options.ExportNamedDeclaration nodeType_key] in *;
         unfold getTypeDefault, js_in, js_get; rewrite Ho, Hv;
         rewrite bool_decide_eq_true_2 by eauto; reflexivity. }
  6: { intros nodeType penultimate log must H Hrun.
       rewrite (Hflip nodeType penultimate log H) in Hrun.
       injection Hrun as <-.
       destruct (options_at (options context) nodeType), (spaced context);
         cbn; split; congruence. }
  - intros H. unfold isOptionSet. rewrite H. reflexivity.
  - intros o Ho Hk. unfold isOptionSet, js_get. rewrite Ho, Hk. reflexivity.
  - intros o Ho Hk. unfold isOptionSet, js_get. rewrite Ho, Hk. cbn.
    destruct (spaced context); reflexivity.
  - exact Hflip.
  - intros nodeType [H | (o & Ho & Hk)];
      destruct nodeType; cbn [options_at options Options.ObjectPattern
        Options.ObjectExpression Options.ImportDeclaration
        Options.ExportNamedDeclaration nodeType_key] in *;
      unfold getTypeDefault, js_in; rewrite ?H, ?Ho; try reflexivity;
      rewrite bool_decide_eq_false_2; try reflexivity;
      rewrite Hk; apply is_Some_None.
Qed.

(** C10 as worded fails in its last part, "the exception can only ever
    flip the closing-side requirement away from the global default":
    under [["always", { ObjectExpression: "never", arraysInObjects: false }]]
    the global default is spaced, the arrays exception is enabled, and
    for an object expression whose penultimate token is "]" the
    closing-side requirement is spaced, the global default itself. *)
Lemma exception_can_restore_global_default :
  ~ (forall context nodeType penultimate log,
       (Options.arraysInObjectsException (options context) = true
        /\ Token.value penultimate = "]")
       \/ (Options.objectsInObjectsException (options context) = true
           /\ Token.value penultimate = "}") ->
       closingCurlyBraceMustBeSpaced context
         (options_at (options context) nodeType) (Some penultimate) log
       = (Normal (negb (spaced context)), log)).
Proof.
  intros H.
  specialize (H Sample.always_objects_never_arrays_off ObjectExpression
                (Sample.tok "]" 15 16) []).
  assert (E : closingCurlyBraceMustBeSpaced Sample.always_objects_never_arrays_off
                (options_at (options Sample.always_objects_never_arrays_off)
                   ObjectExpression)
                (Some (Sample.tok "]" 15 16)) []
              = (Normal (spaced Sample.always_objects_never_arrays_off), []))
    by (vm_compute; reflexivity).
  rewrite E in H.
  assert (S : spaced Sample.always_objects_never_arrays_off = true)
    by (vm_compute; reflexivity).
  rewrite S in H.
  discriminate H.
  left. split; vm_compute; reflexivity.
Qed.

(** * Properties of the line-end whitespace scanner *)

Module NoTrailingSpacesFacts.

Import NoTrailingSpaces.

Local Open Scope nat_scope.

(** With [skipBlankLines], every diagnostic of the lines from number [n]
    on comes from a line of the list that is not blank. *)
Lemma scan_lines_skip_origin ls :
  forall n offset v,
    In v (scan_lines true ls n offset) ->
    exists i content terminator,
      ls !! i = Some (content, terminator)
      /\ line v = n + i
      /\ is_blank content = false.
Proof.
  induction ls as [|[content terminator] rest IH]; intros n offset v Hin.
  - destruct Hin.
  - cbn [scan_lines andb] in Hin.
    assert (Hrest :
      In v (scan_lines true rest (S n)
              (offset + String.length content + String.length terminator)) ->
      exists i c t, ((content, terminator) :: rest) !! i = Some (c, t)
                    /\ line v = n + i /\ is_blank c = false).
    { intros H. destruct (IH _ _ _ H) as (i & c & t & Hi & Hl & Hb).
      exists (S i), c, t. repeat split; [exact Hi|lia|exact Hb]. }
    destruct (is_blank content) eqn:Hblank; [auto|].
    destruct (String.length (strip_trailing content) <? String.length content);
      [|auto].
    destruct Hin as [<- | Hin]; [|auto].
    exists 0, content, terminator. cbn [line]. repeat split; [lia|exact Hblank].
Qed.

(** X16. The scanner modelled from the specification passes every case
    of the rule's test file: the number of errors and their message, the
    line and column pairs a case states, and the fixed output. *)
Lemma scanner_passes_test_cases : forallb passes test_cases = true.
Proof. vm_compute. reflexivity. Qed.

(** C8. On the buffer "var a = 5; <LF> b = 3; " with [skipBlankLines]
    off, the scanner reports exactly two diagnostics, at line 1 column 11
    and at line 2 column 8, whose fixes delete the one-character runs at
    offsets 10 and 19; applying them gives "var a = 5;<LF> b = 3;". *)
Theorem scan_two_lines_example :
  let buffer := sample_two_lines_buffer in
  scan false buffer
  = [ {| message := "Trailing spaces not allowed.";
         line := 1; column := 11; fixSpan := (10, 11, EmptyString) |};
      {| message := "Trailing spaces not allowed.";
         line := 2; column := 8; fixSpan := (19, 20, EmptyString) |} ]
  /\ apply_fixes buffer (scan false buffer)
     = ("var a = 5;" ++ String LF EmptyString ++ " b = 3;")%string.
Proof. split; vm_compute; reflexivity. Qed.

(** C9. With [skipBlankLines] on, no diagnostic is reported for a line
    that consists of space and tab characters only; and on the buffer
    "var a = 'bar';  <LF> <LF><TAB>" the scanner reports exactly one
    diagnostic, at line 1 column 15, while lines 2 and 3 are blank. *)
Theorem skipBlankLines_skips_blank_lines :
  (forall buffer i content terminator v,
      split_lines buffer !! i = Some (content, terminator) ->
      is_blank content = true ->
      In v (scan true buffer) ->
      line v <> S i)
  /\ (let buffer := sample_blank_buffer in
      scan true buffer
      = [ {| message := "Trailing spaces not allowed.";
             line := 1; column := 15; fixSpan := (14, 16, EmptyString) |} ]
      /\ List.map (fun l => is_blank (fst l)) (split_lines buffer)
         = [false; true; true]).
Proof.
  split.
  - intros buffer i content terminator v Hi Hblank Hin Hline.
    destruct (scan_lines_skip_origin _ _ _ _ Hin) as (j & c & t & Hj & Hl & Hb).
    assert (j = i) by lia. subst j.
    fold (split_lines buffer) in Hj. rewrite Hi in Hj.
    injection Hj as <- <-. congruence.
  - split; vm_compute; reflexivity.
Qed.

Lemma skipBlankLines_skips_blank_lines_witness :
  split_lines sample_blank_buffer !! 1
  = Some (String SPACE EmptyString, String LF EmptyString)
  /\ is_blank (String SPACE EmptyString) = true
  /\ line {| message := "Trailing spaces not allowed.";
             line := 1; column := 15; fixSpan := (14, 16, EmptyString) |} <> 2.
Proof.
  split; [vm_compute; reflexivity|]. split; [reflexivity|].
  apply (proj1 skipBlankLines_skips_blank_lines sample_blank_buffer 1
           (String SPACE EmptyString) (String LF EmptyString)).
  - vm_compute; reflexivity.
  - reflexivity.
  - left. reflexivity.
Defined.

End NoTrailingSpacesFacts.

(** * Further properties of the brace-spacing rule *)

(** ** Missing tokens *)

Lemma validateBraceSpacing_opening_absent
    context node first second penultimate last nodeType log :
  first = None \/ second = None ->
  validateBraceSpacing context node first second penultimate last nodeType log
  = (Throw TypeError, log).
Proof.
  intros H. unfold validateBraceSpacing. unfold bind at 1.
  destruct penultimate as [p|];
    rewrite ?closingCurlyBraceMustBeSpaced_run, ?closingCurlyBraceMustBeSpaced_null;
    destruct (Options.arraysInObjectsException (options context));
    destruct (Options.objectsInObjectsException (options context));
    cbn [orb]; try reflexivity;
    destruct H as [-> | ->]; try destruct first; reflexivity.
Qed.

Lemma validateBraceSpacing_closing_absent
    context node f s penultimate last nodeType log :
  all_present (Some f) (Some s) penultimate last = false ->
  validateBraceSpacing context node (Some f) (Some s) penultimate last nodeType log
  = (Throw TypeError,
     log ++ (if match penultimate with
                | None => Options.arraysInObjectsException (options context)
                          || Options.objectsInObjectsException (options context)
                | Some _ => false
                end
             then []
             else side_run Opening node f s f (options_at (options context) nodeType))).
Proof.
  intros H. unfold validateBraceSpacing. unfold bind at 1.
  destruct penultimate as [p|], last as [l|]; try discriminate H;
    rewrite ?closingCurlyBraceMustBeSpaced_run, ?closingCurlyBraceMustBeSpaced_null;
    destruct (Options.arraysInObjectsException (options context));
    destruct (Options.objectsInObjectsException (options context));
    cbn [orb]; rewrite ?app_nil_r; try reflexivity;
    unfold side_run;
    destruct (astUtils.sameLine f s) eqn:E1;
    destruct (options_at (options context) nodeType);
    destruct (astUtils.spacedPair f s) eqn:E3;
    do 3 (run_rule; rewrite ?E1, ?E3; cbn); rewrite ?app_nil_r; reflexivity.
Qed.

(** X2. [validateBraceSpacing] completes normally exactly when all four
    boundary tokens exist; otherwise it ends with a [TypeError], and when
    the opening delimiter or the token after it is the missing one it has
    reported nothing by then. *)
Theorem validateBraceSpacing_normal_iff_tokens
    context node first second penultimate last nodeType log :
  (fst (validateBraceSpacing context node first second penultimate last nodeType log)
   = Normal tt
   <-> all_present first second penultimate last = true)
  /\ (all_present first second penultimate last = false ->
      fst (validateBraceSpacing context node first second penultimate last nodeType log)
      = Throw TypeError)
  /\ (first = None \/ second = None ->
      validateBraceSpacing context node first second penultimate last nodeType log
      = (Throw TypeError, log)).
Proof.
  assert (Hthrow : all_present first second penultimate last = false ->
    fst (validateBraceSpacing context node first second penultimate last nodeType log)
    = Throw TypeError).
  { intros H. destruct first as [f|], second as [s|].
    - rewrite validateBraceSpacing_closing_absent by exact H. reflexivity.
    - rewrite validateBraceSpacing_opening_absent by auto. reflexivity.
    - rewrite validateBraceSpacing_opening_absent by auto. reflexivity.
    - rewrite validateBraceSpacing_opening_absent by auto. reflexivity. }
  split; [|split].
  - destruct (all_present first second penultimate last) eqn:E.
    + destruct first, second, penultimate, last; try discriminate E.
      rewrite validateBraceSpacing_run. split; reflexivity.
    + rewrite Hthrow by reflexivity. split; discriminate.
  - exact Hthrow.
  - apply validateBraceSpacing_opening_absent.
Qed.

(** ** What a handler hands to [validateBraceSpacing] *)

Lemma tokenBefore_of_stream sc r : of_stream sc (tokenBefore sc r).
Proof.
  unfold of_stream, tokenBefore.
  destruct (last _) as [x|] eqn:E; [|exact I].
  apply last_Some_elem_of, list_elem_of_filter in E. exact (proj2 E).
Qed.

Lemma tokenAfter_of_stream sc r : of_stream sc (tokenAfter sc r).
Proof.
  unfold of_stream, tokenAfter.
  destruct (head _) as [x|] eqn:E; [|exact I].
  apply head_Some_elem_of, list_elem_of_filter in E. exact (proj2 E).
Qed.

Lemma firstToken_of_stream sc r : of_stream sc (firstToken sc r).
Proof.
  unfold of_stream, firstToken.
  destruct (head _) as [x|] eqn:E; [|exact I].
  apply head_Some_elem_of, list_elem_of_filter in E. exact (proj2 E).
Qed.

Lemma lastToken_of_stream sc r : of_stream sc (lastToken sc r).
Proof.
  unfold of_stream, lastToken.
  destruct (last _) as [x|] eqn:E; [|exact I].
  apply last_Some_elem_of, list_elem_of_filter in E. exact (proj2 E).
Qed.

(** The tail shared by the import and the export handler, from the
    chosen first specifier on. *)
Lemma specifier_tail_shape sc node (fs ls : option Node.t) key
    (run : Context -> Rule unit) :
  (forall context,
     run context
     = (first <- getTokenBefore sc fs ;;
        last <- getTokenAfter sc ls ;;
        lastValue <- get Token.value last ;;
        last <- (if String.eqb lastValue ","
                 then getTokenAfter sc last else ret last) ;;
        second <- getTokenAfter sc first ;;
        penultimate <- getTokenBefore sc last ;;
        validateBraceSpacing context node first second penultimate last key)) ->
  (forall context log, run context log = (Throw TypeError, log))
  \/ exists f s p l,
       of_stream sc (Some f) /\ of_stream sc s /\ of_stream sc p
       /\ of_stream sc (Some l)
       /\ forall context log,
            run context log
            = validateBraceSpacing context node (Some f) s p (Some l) key log.
Proof.
  intros Hrun.
  destruct fs as [x|]; [|left; intros; rewrite Hrun; reflexivity].
  destruct ls as [y|]; [|left; intros; rewrite Hrun; reflexivity].
  destruct (tokenBefore sc (Node.range x)) as [f|] eqn:Hf.
  2: { left; intros; rewrite Hrun. run_accessors. rewrite Hf.
       destruct (tokenAfter sc (Node.range y)) as [a|]; [|reflexivity].
       destruct (String.eqb (Token.value a) ","); reflexivity. }
  destruct (tokenAfter sc (Node.range y)) as [a|] eqn:Ha.
  2: { left; intros; rewrite Hrun. run_accessors. rewrite Hf, Ha. reflexivity. }
  destruct (String.eqb (Token.value a) ",") eqn:Hcomma.
  - destruct (tokenAfter sc (Token.range a)) as [l|] eqn:Hl.
    + right. exists f, (tokenAfter sc (Token.range f)),
        (tokenBefore sc (Token.range l)), l.
      pose proof (tokenBefore_of_stream sc (Node.range x)) as H1.
      pose proof (tokenAfter_of_stream sc (Token.range a)) as H2.
      rewrite Hf in H1. rewrite Hl in H2.
      repeat split; auto using tokenBefore_of_stream, tokenAfter_of_stream.
      intros; rewrite Hrun. run_accessors. rewrite Hf, Ha, Hcomma, Hl. reflexivity.
    + left; intros; rewrite Hrun. run_accessors. rewrite Hf, Ha, Hcomma, Hl.
      reflexivity.
  - right. exists f, (tokenAfter sc (Token.range f)),
      (tokenBefore sc (Token.range a)), a.
    pose proof (tokenBefore_of_stream sc (Node.range x)) as H1.
    pose proof (tokenAfter_of_stream sc (Node.range y)) as H2.
    rewrite Hf in H1. rewrite Ha in H2.
    repeat split; auto using tokenBefore_of_stream, tokenAfter_of_stream.
    intros; rewrite Hrun. run_accessors. rewrite Hf, Ha, Hcomma. reflexivity.
Qed.

(** A handler returns at once, or throws before reporting, or runs
    [validateBraceSpacing] on tokens that depend on the node and the token
    stream only, the first and last of which are tokens of the stream. *)
Lemma handlers_shape sc key node :
  (forall context log, handlers context sc key node log = (Normal tt, log))
  \/ (forall context log, handlers context sc key node log = (Throw TypeError, log))
  \/ exists f s p l,
       of_stream sc (Some f) /\ of_stream sc s /\ of_stream sc p
       /\ of_stream sc (Some l)
       /\ forall context log,
            handlers context sc key node log
            = validateBraceSpacing context node (Some f) s p (Some l) key log.
Proof.
  assert (Hobj : forall key',
    (forall context log, checkForObject context sc node key' log = (Normal tt, log))
    \/ (forall context log, checkForObject context sc node key' log = (Throw TypeError, log))
    \/ exists f s p l,
         of_stream sc (Some f) /\ of_stream sc s /\ of_stream sc p
         /\ of_stream sc (Some l)
         /\ forall context log,
              checkForObject context sc node key' log
              = validateBraceSpacing context node (Some f) s p (Some l) key' log).
  { intros key'. unfold checkForObject.
    destruct (length (Node.properties node) =? 0)%nat; [left; reflexivity|].
    right.
    destruct (firstToken sc (Node.range node)) as [f|] eqn:Hf.
    2: { left; intros. run_accessors. rewrite Hf. reflexivity. }
    destruct (lastToken sc (Node.range node)) as [l|] eqn:Hl.
    2: { left; intros. run_accessors. rewrite Hf, Hl. reflexivity. }
    right. exists f, (tokenAfter sc (Token.range f)),
      (tokenBefore sc (Token.range l)), l.
    pose proof (firstToken_of_stream sc (Node.range node)) as H1.
    pose proof (lastToken_of_stream sc (Node.range node)) as H2.
    rewrite Hf in H1. rewrite Hl in H2.
    repeat split; auto using tokenBefore_of_stream, tokenAfter_of_stream.
    intros. run_accessors. rewrite Hf, Hl. reflexivity. }
  destruct key; cbn [handlers]; try apply Hobj.
  - unfold checkForImport.
    destruct (length (Node.specifiers node) =? 0)%nat; [left; reflexivity|].
    destruct (Node.specifiers node !! (length (Node.specifiers node) - 1)%nat)
      as [ls|]; [|right; left; reflexivity].
    cbv beta iota zeta delta [get bind ret].
    destruct (String.eqb (Node.type ls) "ImportSpecifier"); cbn [negb];
      [|left; reflexivity].
    right.
    destruct (Node.specifiers node !! 0%nat) as [d|]; [|left; reflexivity].
    apply (specifier_tail_shape sc node
             (if negb (String.eqb (Node.type d) "ImportSpecifier")
              then Node.specifiers node !! 1%nat else Some d)
             (Some ls) ImportDeclaration).
    intros context. reflexivity.
  - unfold checkForExport.
    destruct (length (Node.specifiers node) =? 0)%nat; [left; reflexivity|].
    right.
    apply (specifier_tail_shape sc node (Node.specifiers node !! 0%nat)
             (Node.specifiers node !! (length (Node.specifiers node) - 1)%nat)
             ExportNamedDeclaration).
    intros context. reflexivity.
Qed.

(** The diagnostics of a run whose two delimiters exist: an opening part
    and a closing part, each empty or what its side appends. *)
Lemma validateBraceSpacing_reports context node f s p l nodeType :
  exists o c,
    reports_of (validateBraceSpacing context node (Some f) s p (Some l) nodeType)
    = o ++ c
    /\ (o = [] \/ exists s0 must, o = side_run Opening node f s0 f must)
    /\ (c = [] \/ exists p0 must, c = side_run Closing node p0 l l must).
Proof.
  unfold reports_of.
  destruct s as [s0|].
  - destruct p as [p0|].
    + rewrite validateBraceSpacing_run. cbn [snd app].
      eexists _, _. split; [reflexivity|]. split; right; eauto.
    + rewrite validateBraceSpacing_closing_absent by reflexivity. cbn [snd app].
      eexists _, []. split; [symmetry; apply app_nil_r|].
      split; [|left; reflexivity].
      destruct (_ || _); [left; reflexivity | right; eauto].
  - rewrite validateBraceSpacing_opening_absent by auto.
    exists [], []. split; [reflexivity|]. split; left; reflexivity.
Qed.

Lemma side_run_anchored side node left right boundary must r :
  In r (side_run side node left right boundary must) ->
  anchored_at node boundary r.
Proof.
  unfold side_run, anchored_at.
  destruct (astUtils.sameLine left right); [|intros []].
  destruct (outcome must (astUtils.spacedPair left right)) eqn:E;
    intros H; [destruct H| |]; exists side;
    cbn [expected_reports] in H |- *;
    destruct H as [<- | []]; [left | right]; reflexivity.
Qed.

(** ** Properties of every handler run *)

(** X3. A handler reports at most two diagnostics for a node, at most one
    on the opening side and at most one on the closing side, whatever the
    node, the token stream and the configuration, and also when the run
    ends with a [TypeError]. *)
Theorem handlers_at_most_one_per_side context sc key node :
  (length (reports_of (handlers context sc key node)) <= 2)%nat
  /\ (length (side_reports Opening (reports_of (handlers context sc key node))) <= 1)%nat
  /\ (length (side_reports Closing (reports_of (handlers context sc key node))) <= 1)%nat.
Proof.
  unfold reports_of.
  destruct (handlers_shape sc key node) as [H | [H | (f & s & p & l & _ & _ & _ & _ & H)]];
    rewrite H; cbn [snd side_reports List.filter length]; try lia.
  destruct (validateBraceSpacing_reports context node f s p l key)
    as (o & c & Hrs & Ho & Hc).
  unfold reports_of in Hrs. rewrite Hrs.
  rewrite !side_reports_app, !length_app.
  assert (Ho1 : (length o <= 1)%nat
                /\ side_reports Opening o = o /\ side_reports Closing o = []).
  { destruct Ho as [-> | (s0 & must & ->)]; [cbn; auto with arith|].
    split; [apply side_run_length|].
    split; [apply side_reports_run_same|].
    apply side_reports_run_other; discriminate. }
  assert (Hc1 : (length c <= 1)%nat
                /\ side_reports Closing c = c /\ side_reports Opening c = []).
  { destruct Hc as [-> | (p0 & must & ->)]; [cbn; auto with arith|].
    split; [apply side_run_length|].
    split; [apply side_reports_run_same|].
    apply side_reports_run_other; discriminate. }
  destruct Ho1 as (? & -> & ->), Hc1 as (? & -> & ->). cbn [length]. lia.
Qed.

(** X4. Every diagnostic of a handler run is reported for the node the
    handler was called with and is anchored at a token of the stream: it
    carries one of the two messages of a side, built from that token's
    text, at that token's end (opening side) or start (closing side). *)
Theorem handlers_reports_anchored context sc key node r :
  In r (reports_of (handlers context sc key node)) ->
  Report.node r = node
  /\ exists t, t ∈ tokens sc /\ anchored_at node t r.
Proof.
  unfold reports_of.
  destruct (handlers_shape sc key node)
    as [H | [H | (f & s & p & l & Hf & _ & _ & Hl & H)]];
    rewrite H; cbn [snd]; try (intros []).
  destruct (validateBraceSpacing_reports context node f s p l key)
    as (o & c & Hrs & Ho & Hc).
  unfold reports_of in Hrs. rewrite Hrs. intros Hin.
  assert (Ha : exists t, t ∈ tokens sc /\ anchored_at node t r).
  { apply in_app_or in Hin. destruct Hin as [Hin | Hin].
    - destruct Ho as [-> | (s0 & must & ->)]; [destruct Hin|].
      exists f. split; [exact Hf|]. eapply side_run_anchored; eassumption.
    - destruct Hc as [-> | (p0 & must & ->)]; [destruct Hin|].
      exists l. split; [exact Hl|]. eapply side_run_anchored; eassumption. }
  split; [|exact Ha].
  destruct Ha as (t & _ & side & [E | E]); cbn [expected_reports] in E;
    injection E as ->; reflexivity.
Qed.

Lemma handlers_reports_anchored_witness :
  Report.node
    {| Report.node := Sample.obj_node;
       Report.loc := {| Position.line := 1; Position.column := 9 |};
       Report.message := "A space is required after '{'" |}
  = Sample.obj_node
  /\ exists t,
       t ∈ tokens Sample.obj_source
       /\ anchored_at Sample.obj_node t
            {| Report.node := Sample.obj_node;
               Report.loc := {| Position.line := 1; Position.column := 9 |};
               Report.message := "A space is required after '{'" |}.
Proof.
  apply (handlers_reports_anchored Sample.always Sample.obj_source
           ObjectExpression Sample.obj_node).
  vm_compute. left. reflexivity.
Defined.

(** X6. When a handler run completes normally under one configuration, it
    completes normally and reports the same opening-side diagnostics under
    every configuration that differs from it at most in the two exception
    flags. *)
Theorem handlers_exception_flags_leave_opening_side context1 context2 sc key node :
  same_apart_from_exceptions (options context1) (options context2) ->
  fst (handlers context1 sc key node []) = Normal tt ->
  fst (handlers context2 sc key node []) = Normal tt
  /\ side_reports Opening (reports_of (handlers context1 sc key node))
     = side_reports Opening (reports_of (handlers context2 sc key node)).
Proof.
  intros Hsame Hnormal. unfold reports_of in *.
  destruct (handlers_shape sc key node)
    as [H | [H | (f & s & p & l & _ & _ & _ & _ & H)]];
    rewrite !H in *; cbn [fst snd] in *; try discriminate; [split; reflexivity|].
  apply (proj1 (validateBraceSpacing_normal_iff_tokens _ _ _ _ _ _ _ _)) in Hnormal.
  destruct s as [s0|], p as [p0|]; try discriminate Hnormal.
  rewrite !validateBraceSpacing_run. cbn [fst snd app].
  split; [reflexivity|].
  rewrite !side_reports_app, !side_reports_run_same.
  rewrite !side_reports_run_other by discriminate.
  destruct Hsame as (_ & HP & HE & HI & HX).
  replace (options_at (options context2) key)
    with (options_at (options context1) key)
    by (destruct key; cbn [options_at]; assumption).
  reflexivity.
Qed.

Lemma handlers_exception_flags_leave_opening_side_witness :
  fst (handlers Sample.always_arrays_off Sample.arr_source ObjectExpression
         Sample.arr_node []) = Normal tt
  /\ side_reports Opening
       (reports_of (handlers Sample.always Sample.arr_source ObjectExpression
                      Sample.arr_node))
     = side_reports Opening
         (reports_of (handlers Sample.always_arrays_off Sample.arr_source
                        ObjectExpression Sample.arr_node)).
Proof.
  apply (handlers_exception_flags_leave_opening_side
           Sample.always Sample.always_arrays_off Sample.arr_source
           ObjectExpression Sample.arr_node).
  - repeat split; vm_compute; reflexivity.
  - vm_compute. reflexivity.
Defined.

(** X5. A handler run that ends abruptly ends with a [TypeError] and has
    reported no closing-side diagnostic: the closing side is checked
    last, after every property read that can fail. *)
Theorem handlers_throw_before_closing context sc key node e :
  fst (handlers context sc key node []) = Throw e ->
  e = TypeError
  /\ side_reports Closing (reports_of (handlers context sc key node)) = [].
Proof.
  unfold reports_of.
  destruct (handlers_shape sc key node)
    as [H | [H | (f & s & p & l & _ & _ & _ & _ & H)]];
    rewrite !H; cbn [fst snd]; intros Hthrow; try discriminate Hthrow.
  - injection Hthrow as <-. split; reflexivity.
  - destruct s as [s0|].
    + destruct p as [p0|].
      * rewrite validateBraceSpacing_run in Hthrow. discriminate Hthrow.
      * rewrite validateBraceSpacing_closing_absent in * by reflexivity.
        cbn [fst snd app] in *. injection Hthrow as <-. split; [reflexivity|].
        destruct (_ || _); [reflexivity|].
        apply side_reports_run_other; discriminate.
    + rewrite validateBraceSpacing_opening_absent in * by auto.
      cbn [fst snd] in *. injection Hthrow as <-. split; reflexivity.
Qed.

Lemma handlers_throw_before_closing_witness :
  TypeError = TypeError
  /\ side_reports Closing
       (reports_of (handlers Sample.always {| tokens := [] |} ObjectExpression
                      Sample.obj_node)) = [].
Proof.
  apply (handlers_throw_before_closing Sample.always {| tokens := [] |}
           ObjectExpression Sample.obj_node TypeError).
  vm_compute. reflexivity.
Defined.

(** ** The two sides and the two policies *)

(** X7. The two sides are checked independently: with all four tokens at
    hand, the opening-side diagnostics do not change with the penultimate
    and last tokens, and the closing-side diagnostics do not change with
    the first and second tokens. *)
Theorem sides_checked_independently
    context node first second penultimate last first' second' penultimate' last' nodeType :
  side_reports Opening
    (reports_of (validateBraceSpacing context node (Some first) (Some second)
                   (Some penultimate) (Some last) nodeType))
  = side_reports Opening
      (reports_of (validateBraceSpacing context node (Some first) (Some second)
                     (Some penultimate') (Some last') nodeType))
  /\ side_reports Closing
       (reports_of (validateBraceSpacing context node (Some first) (Some second)
                      (Some penultimate) (Some last) nodeType))
     = side_reports Closing
         (reports_of (validateBraceSpacing context node (Some first') (Some second')
                        (Some penultimate) (Some last) nodeType)).
Proof.
  unfold reports_of. rewrite !validateBraceSpacing_run. cbn [snd app].
  rewrite !side_reports_app, !side_reports_run_same.
  rewrite !side_reports_run_other by discriminate.
  split; reflexivity.
Qed.

(** X8. Without a second options object, "always" and any other first
    option are exact complements on a side whose two tokens lie on one
    line: of two runs on the same tokens, one under each policy, exactly
    one reports on that side. *)
Theorem policies_are_complements
    context1 context2 node first second penultimate last nodeType side :
  options_1 context1 = None ->
  options_1 context2 = None ->
  spaced context1 = negb (spaced context2) ->
  on_same_line
    (fst (side_pair side (Some first) (Some second) (Some penultimate) (Some last)))
    (snd (side_pair side (Some first) (Some second) (Some penultimate) (Some last)))
  = true ->
  (length (side_reports side
             (reports_of (validateBraceSpacing context1 node (Some first) (Some second)
                            (Some penultimate) (Some last) nodeType)))
   + length (side_reports side
               (reports_of (validateBraceSpacing context2 node (Some first) (Some second)
                              (Some penultimate) (Some last) nodeType))))%nat
  = 1%nat.
Proof.
  intros H1 H2 Hneg Hline.
  assert (Hat : forall c, options_1 c = None ->
            options_at (options c) nodeType = spaced c
            /\ forall sp, closing_requirement (options c) sp penultimate = sp).
  { intros c Hc. split.
    - destruct nodeType; cbn; unfold getTypeDefault; rewrite Hc; reflexivity.
    - intros sp. unfold closing_requirement. cbn. unfold isOptionSet.
      rewrite Hc. reflexivity. }
  destruct (Hat _ H1) as [A1 C1], (Hat _ H2) as [A2 C2].
  unfold reports_of. rewrite !validateBraceSpacing_run. cbn [snd app].
  rewrite !side_reports_app, C1, C2, A1, A2, Hneg.
  destruct side; cbn [side_pair fst snd on_same_line] in Hline;
    rewrite !side_reports_run_same;
    rewrite !side_reports_run_other by discriminate;
    rewrite ?app_nil_r; cbn [app]; unfold side_run; rewrite Hline;
    destruct (spaced context2);
    [ destruct (astUtils.spacedPair first second)
    | destruct (astUtils.spacedPair first second)
    | destruct (astUtils.spacedPair penultimate last)
    | destruct (astUtils.spacedPair penultimate last) ];
    reflexivity.
Qed.

Lemma policies_are_complements_witness :
  (length (side_reports Opening
             (reports_of (validateBraceSpacing Sample.always Sample.obj_node
                            (Some (Sample.tok "{" 8 9)) (Some (Sample.tok "x" 9 10))
                            (Some (Sample.tok "'y'" 12 15)) (Some (Sample.tok "}" 15 16))
                            ObjectExpression)))
   + length (side_reports Opening
               (reports_of (validateBraceSpacing Sample.never Sample.obj_node
                              (Some (Sample.tok "{" 8 9)) (Some (Sample.tok "x" 9 10))
                              (Some (Sample.tok "'y'" 12 15)) (Some (Sample.tok "}" 15 16))
                              ObjectExpression))))%nat
  = 1%nat.
Proof.
  apply (policies_are_complements Sample.always Sample.never Sample.obj_node
           (Sample.tok "{" 8 9) (Sample.tok "x" 9 10)
           (Sample.tok "'y'" 12 15) (Sample.tok "}" 15 16) ObjectExpression Opening);
    reflexivity.
Defined.

(** ** The configuration as the handlers see it *)

(** The handlers read the configuration through [options] only. *)
Lemma handlers_options_ext context1 context2 sc key node log :
  options context1 = options context2 ->
  handlers context1 sc key node log = handlers context2 sc key node log.
Proof.
  intros Heq.
  destruct (handlers_shape sc key node)
    as [H | [H | (f & s & p & l & _ & _ & _ & _ & H)]];
    rewrite !H; try reflexivity.
  unfold validateBraceSpacing, closingCurlyBraceMustBeSpaced.
  rewrite Heq. reflexivity.
Qed.

Lemma isSpaced_not_always v : v <> JStr "always" -> isSpaced v = false.
Proof.
  intros H. destruct v as [|b|s]; try reflexivity.
  cbn. apply String.eqb_neq. congruence.
Qed.

(** [options] is a function of the global [spaced] and of the second
    options object. *)
Lemma options_ext context1 context2 :
  spaced context1 = spaced context2 ->
  (forall k, In k known_keys ->
     (options_1 context1 = None <-> options_1 context2 = None)
     /\ forall o1 o2, options_1 context1 = Some o1 -> options_1 context2 = Some o2 ->
                      o1 !! k = o2 !! k) ->
  options context1 = options context2.
Proof.
  intros Hs Hk.
  assert (Hset : forall k, In k known_keys ->
            isOptionSet context1 k = isOptionSet context2 k
            /\ getTypeDefault context1 k = getTypeDefault context2 k).
  { intros k Hin. destruct (Hk k Hin) as [Hnone Hsome].
    unfold isOptionSet, getTypeDefault, js_get, js_in. rewrite Hs.
    destruct (options_1 context1) as [o1|], (options_1 context2) as [o2|].
    - rewrite (Hsome o1 o2 eq_refl eq_refl). split; reflexivity.
    - destruct Hnone as [_ Hnone]. discriminate (Hnone eq_refl).
    - destruct Hnone as [Hnone _]. discriminate (Hnone eq_refl).
    - split; reflexivity. }
  unfold options. rewrite Hs.
  rewrite (proj1 (Hset "arraysInObjects" ltac:(cbn; tauto))).
  rewrite (proj1 (Hset "objectsInObjects" ltac:(cbn; tauto))).
  rewrite (proj2 (Hset "ObjectPattern" ltac:(cbn; tauto))).
  rewrite (proj2 (Hset "ObjectExpression" ltac:(cbn; tauto))).
  rewrite (proj2 (Hset "ImportDeclaration" ltac:(cbn; tauto))).
  rewrite (proj2 (Hset "ExportNamedDeclaration" ltac:(cbn; tauto))).
  reflexivity.
Qed.

(** X9. Only the exact string "always" asks for spaces: with any other
    first option, a missing one included, every handler behaves as under
    "never" with the same second options object. *)
Theorem any_other_first_option_is_never context sc key node log :
  options_0 context <> JStr "always" ->
  handlers context sc key node log
  = handlers {| options_0 := JStr "never"; options_1 := options_1 context |}
      sc key node log.
Proof.
  intros H. apply handlers_options_ext, options_ext.
  - unfold spaced. cbn [options_0]. rewrite isSpaced_not_always by exact H.
    reflexivity.
  - intros k _. cbn [options_1]. split; [tauto|].
    intros o1 o2 E1 E2. congruence.
Qed.

Lemma any_other_first_option_is_never_witness :
  handlers Sample2.no_options Sample.obj_source ObjectExpression Sample.obj_node []
  = handlers {| options_0 := JStr "never"; options_1 := options_1 Sample2.no_options |}
      Sample.obj_source ObjectExpression Sample.obj_node [].
Proof.
  apply (any_other_first_option_is_never Sample2.no_options Sample.obj_source
           ObjectExpression Sample.obj_node []).
  discriminate.
Defined.

(** X10. The second options object is read at six property names only:
    adding or changing any other property changes nothing in what the
    handlers do. *)
Theorem unknown_option_ignored context o k v sc key node log :
  options_1 context = Some o ->
  ~ In k known_keys ->
  handlers (with_options_1 context (Some (<[k := v]> o))) sc key node log
  = handlers context sc key node log.
Proof.
  intros Ho Hk. apply handlers_options_ext, options_ext.
  - reflexivity.
  - intros k' Hin. cbn [with_options_1 options_1]. rewrite Ho.
    split; [split; discriminate|].
    intros o1 o2 E1 E2. injection E1 as <-. injection E2 as <-.
    apply lookup_insert_ne. intros ->. contradiction.
Qed.

Lemma unknown_option_ignored_witness :
  handlers (with_options_1 Sample2.always_empty
              (Some (<["trailingCommas" := JBool true]> ∅)))
    Sample.obj_source ObjectExpression Sample.obj_node []
  = handlers Sample2.always_empty Sample.obj_source ObjectExpression Sample.obj_node [].
Proof.
  apply (unknown_option_ignored Sample2.always_empty ∅ "trailingCommas" (JBool true)
           Sample.obj_source ObjectExpression Sample.obj_node []).
  - reflexivity.
  - cbn. intros [H|[H|[H|[H|[H|[H|[]]]]]]]; discriminate H.
Defined.

(** X11. An exception entry that is not the boolean opposite to the global
    setting (the same boolean, or a value that is no boolean) is as good
    as no entry: every handler behaves as if the property were deleted. *)
Theorem redundant_exception_entry_is_no_entry context o k v sc key node log :
  options_1 context = Some o ->
  In k exception_keys ->
  o !! k = Some v ->
  v <> JBool (negb (spaced context)) ->
  handlers context sc key node log
  = handlers (with_options_1 context (Some (delete k o))) sc key node log.
Proof.
  intros Ho Hk Hv Hne.
  apply handlers_options_ext.
  assert (Hs : spaced (with_options_1 context (Some (delete k o))) = spaced context)
    by reflexivity.
  assert (Hoff : strict_eq_bool v (negb (spaced context)) = false).
  { destruct v as [|b|s]; try reflexivity. cbn.
    apply Bool.eqb_false_iff. congruence. }
  assert (Hother : forall k', k' <> k ->
            isOptionSet context k'
            = isOptionSet (with_options_1 context (Some (delete k o))) k'
            /\ getTypeDefault context k'
               = getTypeDefault (with_options_1 context (Some (delete k o))) k').
  { intros k' Hk'. unfold isOptionSet, getTypeDefault, js_get, js_in.
    rewrite Hs. cbn [with_options_1 options_1]. rewrite Ho.
    rewrite lookup_delete_ne by congruence. split; reflexivity. }
  assert (Hself : isOptionSet context k = false
            /\ isOptionSet (with_options_1 context (Some (delete k o))) k = false).
  { unfold isOptionSet, js_get. cbn [with_options_1 options_1].
    rewrite Ho, Hv, lookup_delete_eq. cbn. split; [exact Hoff|reflexivity]. }
  unfold options. rewrite Hs.
  rewrite <- (proj2 (Hother "ObjectPattern"
                       ltac:(destruct Hk as [<-|[<-|[]]]; discriminate))).
  rewrite <- (proj2 (Hother "ObjectExpression"
                       ltac:(destruct Hk as [<-|[<-|[]]]; discriminate))).
  rewrite <- (proj2 (Hother "ImportDeclaration"
                       ltac:(destruct Hk as [<-|[<-|[]]]; discriminate))).
  rewrite <- (proj2 (Hother "ExportNamedDeclaration"
                       ltac:(destruct Hk as [<-|[<-|[]]]; discriminate))).
  destruct Hk as [<-|[<-|[]]].
  - rewrite (proj1 Hself), (proj2 Hself).
    rewrite <- (proj1 (Hother "objectsInObjects" ltac:(discriminate))).
    reflexivity.
  - rewrite (proj1 Hself), (proj2 Hself).
    rewrite <- (proj1 (Hother "arraysInObjects" ltac:(discriminate))).
    reflexivity.
Qed.

Lemma redundant_exception_entry_is_no_entry_witness :
  handlers Sample2.always_arrays_on Sample.arr_source ObjectExpression Sample.arr_node []
  = handlers
      (with_options_1 Sample2.always_arrays_on
         (Some (delete "arraysInObjects" {[ "arraysInObjects" := JBool true ]})))
      Sample.arr_source ObjectExpression Sample.arr_node [].
Proof.
  apply (redundant_exception_entry_is_no_entry Sample2.always_arrays_on
           {[ "arraysInObjects" := JBool true ]} "arraysInObjects" (JBool true)
           Sample.arr_source ObjectExpression Sample.arr_node []).
  - reflexivity.
  - left. reflexivity.
  - reflexivity.
  - discriminate.
Defined.

(** X12. A per-construct entry decides the construct's requirement alone:
    it is spaced exactly when the entry is the string "always", whatever
    the first option.  So two configurations with the same second options
    object, which has an entry for the construct, agree on the
    opening-side diagnostics of every run that completes normally. *)
Theorem per_construct_entry_overrides_first_option
    context1 context2 o v sc key node :
  options_1 context1 = Some o ->
  options_1 context2 = Some o ->
  o !! nodeType_key key = Some v ->
  fst (handlers context1 sc key node []) = Normal tt ->
  options_at (options context1) key = isSpaced v
  /\ fst (handlers context2 sc key node []) = Normal tt
  /\ side_reports Opening (reports_of (handlers context1 sc key node))
     = side_reports Opening (reports_of (handlers context2 sc key node)).
Proof.
  intros H1 H2 Hv Hnormal.
  assert (Hat : forall c, options_1 c = Some o ->
            options_at (options c) key = isSpaced v).
  { intros c Hc.
    destruct key; cbn [options_at options Options.ObjectPattern
      Options.ObjectExpression Options.ImportDeclaration
      Options.ExportNamedDeclaration nodeType_key] in *;
      unfold getTypeDefault, js_in, js_get; rewrite Hc, Hv;
      rewrite bool_decide_eq_true_2 by eauto; reflexivity. }
  split; [apply Hat; exact H1|].
  unfold reports_of in *.
  destruct (handlers_shape sc key node)
    as [H | [H | (f & s & p & l & _ & _ & _ & _ & H)]];
    rewrite !H in *; cbn [fst snd] in *; try discriminate; [split; reflexivity|].
  apply (proj1 (validateBraceSpacing_normal_iff_tokens _ _ _ _ _ _ _ _)) in Hnormal.
  destruct s as [s0|], p as [p0|]; try discriminate Hnormal.
  rewrite !validateBraceSpacing_run. cbn [fst snd app].
  split; [reflexivity|].
  rewrite !side_reports_app, !side_reports_run_same.
  rewrite !side_reports_run_other by discriminate.
  rewrite (Hat _ H1), (Hat _ H2). reflexivity.
Qed.

Lemma per_construct_entry_overrides_first_option_witness :
  options_at (options Sample2.never_objects_always) ObjectExpression
  = isSpaced (JStr "always")
  /\ fst (handlers Sample2.always_objects_always Sample.obj_source ObjectExpression
            Sample.obj_node []) = Normal tt
  /\ side_reports Opening
       (reports_of (handlers Sample2.never_objects_always Sample.obj_source
                      ObjectExpression Sample.obj_node))
     = side_reports Opening
         (reports_of (handlers Sample2.always_objects_always Sample.obj_source
                        ObjectExpression Sample.obj_node)).
Proof.
  apply (per_construct_entry_overrides_first_option
           Sample2.never_objects_always Sample2.always_objects_always
           {[ "ObjectExpression" := JStr "always" ]} (JStr "always")
           Sample.obj_source ObjectExpression Sample.obj_node).
  - reflexivity.
  - reflexivity.
  - reflexivity.
  - vm_compute. reflexivity.
Defined.

(** ** Boundary tokens *)

(** X13. For an import (whose last specifier is an [ImportSpecifier]) or an
    export declaration in which the token after the last specifier is not
    a comma, that token is the closing boundary: once the boundary tokens
    exist, the handler runs [validateBraceSpacing] with the token before
    the opening specifier as [first], the token after the last specifier
    as [last], and their inner neighbours as [second] and
    [penultimate]. *)
Theorem closing_boundary_without_comma
    context sc key node fs ls first after log :
  key = ImportDeclaration \/ key = ExportNamedDeclaration ->
  opening_specifier key node = Some fs ->
  last (Node.specifiers node) = Some ls ->
  (key = ImportDeclaration -> Node.type ls = "ImportSpecifier") ->
  tokenBefore sc (Node.range fs) = Some first ->
  tokenAfter sc (Node.range ls) = Some after ->
  Token.value after <> "," ->
  handlers context sc key node log
  = validateBraceSpacing context node (Some first)
      (tokenAfter sc (Token.range first))
      (tokenBefore sc (Token.range after)) (Some after) key log.
Proof.
  intros Hkey Hfs Hls Hty Hfirst Hafter Hvalue.
  apply (check_specifiers_resolved context sc key node fs ls first after after log);
    auto.
  apply String.eqb_neq in Hvalue. rewrite Hvalue. reflexivity.
Qed.

Lemma closing_boundary_without_comma_witness :
  handlers Sample.always Sample2.export_plain_source ExportNamedDeclaration
    Sample2.export_plain_node []
  = validateBraceSpacing Sample.always Sample2.export_plain_node
      (Some (Sample.tok "{" 7 8))
      (tokenAfter Sample2.export_plain_source (7, 8))
      (tokenBefore Sample2.export_plain_source (12, 13))
      (Some (Sample.tok "}" 12 13)) ExportNamedDeclaration [].
Proof.
  apply (closing_boundary_without_comma Sample.always Sample2.export_plain_source
           ExportNamedDeclaration Sample2.export_plain_node
           (Sample.leaf "ExportSpecifier" 8 9) (Sample.leaf "ExportSpecifier" 11 12)
           (Sample.tok "{" 7 8) (Sample.tok "}" 12 13) []).
  - right; reflexivity.
  - reflexivity.
  - reflexivity.
  - discriminate.
  - reflexivity.
  - reflexivity.
  - discriminate.
Defined.

(** X14. For an object expression or pattern with at least one property,
    the handler takes the first and the last token of the node as the two
    delimiters: when both exist it runs [validateBraceSpacing] on them,
    the token after the first and the token before the last; when one of
    them is missing it ends with a [TypeError] and reports nothing. *)
Theorem checkForObject_boundaries context sc key node log :
  key = ObjectPattern \/ key = ObjectExpression ->
  Node.properties node <> [] ->
  match firstToken sc (Node.range node), lastToken sc (Node.range node) with
  | Some f, Some l =>
      handlers context sc key node log
      = validateBraceSpacing context node (Some f)
          (tokenAfter sc (Token.range f))
          (tokenBefore sc (Token.range l)) (Some l) key log
  | _, _ => handlers context sc key node log = (Throw TypeError, log)
  end.
Proof.
  intros Hkey Hne.
  assert (Hlen : (length (Node.properties node) =? 0)%nat = false).
  { destruct (Node.properties node); [contradiction|reflexivity]. }
  destruct Hkey as [-> | ->]; cbn [handlers];
    unfold checkForObjectPattern, checkForObjectExpression, checkForObject;
    rewrite Hlen; run_accessors;
    destruct (firstToken sc (Node.range node)) as [f|];
    destruct (lastToken sc (Node.range node)) as [l|]; reflexivity.
Qed.

Lemma checkForObject_boundaries_witness :
  handlers Sample.always Sample.obj_source ObjectExpression Sample.obj_node []
  = validateBraceSpacing Sample.always Sample.obj_node
      (Some (Sample.tok "{" 8 9))
      (tokenAfter Sample.obj_source (8, 9))
      (tokenBefore Sample.obj_source (15, 16))
      (Some (Sample.tok "}" 15 16)) ObjectExpression [].
Proof.
  apply (checkForObject_boundaries Sample.always Sample.obj_source
           ObjectExpression Sample.obj_node []).
  - right; reflexivity.
  - discriminate.
Defined.

Lemma bind_normal {A B} (m : Rule A) (k : A -> Rule B) log a log' :
  m log = (Normal a, log') -> bind m k log = k a log'.
Proof. intros H. unfold bind. rewrite H. reflexivity. Qed.

(** X15. The exception flags matter only for a penultimate token that
    reads "]" or "}": for any other penultimate token, two configurations
    that differ at most in the two flags give the same run, diagnostics
    and completion alike, whichever of the other three tokens exist. *)
Theorem exception_flags_need_bracket
    context1 context2 node first second penultimate last nodeType log :
  same_apart_from_exceptions (options context1) (options context2) ->
  Token.value penultimate <> "]" ->
  Token.value penultimate <> "}" ->
  validateBraceSpacing context1 node first second (Some penultimate) last nodeType log
  = validateBraceSpacing context2 node first second (Some penultimate) last nodeType log.
Proof.
  intros (_ & HP & HE & HI & HX) H1 H2.
  assert (Hat : options_at (options context1) nodeType
                = options_at (options context2) nodeType)
    by (destruct nodeType; cbn [options_at]; assumption).
  assert (Hreq : forall c sp, closing_requirement (options c) sp penultimate = sp).
  { intros c sp. unfold closing_requirement.
    apply String.eqb_neq in H1, H2. rewrite H1, H2, !andb_false_r. reflexivity. }
  unfold validateBraceSpacing.
  rewrite (bind_normal _ _ _ _ _
             (closingCurlyBraceMustBeSpaced_run context1 _ penultimate log)).
  rewrite (bind_normal _ _ _ _ _
             (closingCurlyBraceMustBeSpaced_run context2 _ penultimate log)).
  rewrite !Hreq, Hat. reflexivity.
Qed.

Lemma exception_flags_need_bracket_witness :
  validateBraceSpacing Sample.always Sample.obj_node
    (Some (Sample.tok "{" 8 9)) (Some (Sample.tok "x" 9 10))
    (Some (Sample.tok "'y'" 12 15)) (Some (Sample.tok "}" 15 16)) ObjectExpression []
  = validateBraceSpacing Sample.always_arrays_off Sample.obj_node
      (Some (Sample.tok "{" 8 9)) (Some (Sample.tok "x" 9 10))
      (Some (Sample.tok "'y'" 12 15)) (Some (Sample.tok "}" 15 16)) ObjectExpression [].
Proof.
  apply (exception_flags_need_bracket Sample.always Sample.always_arrays_off
           Sample.obj_node (Some (Sample.tok "{" 8 9)) (Some (Sample.tok "x" 9 10))
           (Sample.tok "'y'" 12 15) (Some (Sample.tok "}" 15 16)) ObjectExpression []).
  - repeat split; vm_compute; reflexivity.
  - discriminate.
  - discriminate.
Defined.
